(** * Cron expression validator: a shallow embedding of [validator.py]

    The Python module validates cron expressions field by field and
    returns a boolean.  Strings are modelled as [string], that is,
    sequences of the code points 0..255 (the Latin-1 part of Python's
    [str]); in that range the regular-expression class [\d] is exactly
    the ten ASCII digits.  The numbers the code compares are Python
    floats produced by [float(...)] from digit strings; they are
    modelled by [pyfloat], whose finite values are the (integral)
    doubles obtained by round-to-nearest-even.  The only operation of
    the module that can raise on a string argument is [float(...)],
    next to indexing and unpacking of lists; calls are therefore
    threaded through a small error monad. *)

From Stdlib Require Import ZArith NArith Bool List String Ascii Lia.
Import ListNotations.

Local Open Scope string_scope.
Local Open Scope Z_scope.

(** ** Exceptions *)

Module Py.

Inductive exn : Type := ValueError | IndexError.

Inductive result (A : Type) : Type :=
| Ok (a : A)
| Raise (e : exn).

Arguments Ok {A} a.
Arguments Raise {A} e.

Definition bind {A B : Type} (m : result A) (k : A -> result B) : result B :=
  match m with
  | Ok a => k a
  | Raise e => Raise e
  end.

(** Python's [a and b] and [a or b] on booleans: the right operand is
    evaluated only when the left one does not decide the result. *)
Definition and_then (a : result bool) (b : result bool) : result bool :=
  bind a (fun x => if x then b else Ok false).

Definition or_else (a : result bool) (b : result bool) : result bool :=
  bind a (fun x => if x then Ok true else b).

End Py.

Import Py.

Notation "x <- m ;; k" := (bind m (fun x => k))
  (at level 61, m at next level, right associativity).
Notation "a &&& b" := (and_then a b) (at level 40, left associativity).
Notation "a ||| b" := (or_else a b) (at level 50, left associativity).

(** ** Characters and the string methods the module uses *)

Definition code (c : ascii) : N := N_of_ascii c.

Definition char_between (lo hi : N) (c : ascii) : bool :=
  ((lo <=? code c) && (code c <=? hi))%N.

(** [\d] *)
Definition is_digit (c : ascii) : bool := char_between 48 57 c.

(** [[a-z]] and [[a-zA-Z]] *)
Definition is_lower_letter (c : ascii) : bool := char_between 97 122 c.
Definition is_letter (c : ascii) : bool :=
  char_between 97 122 c || char_between 65 90 c.

(** [str.isspace] on the code points 0..255: tab to carriage return,
    the four separators 0x1c..0x1f, space, NEL and no-break space. *)
Definition is_space (c : ascii) : bool :=
  char_between 9 13 c || char_between 28 32 c
  || (code c =? 133)%N || (code c =? 160)%N.

(** [str.lower] on one character: A-Z and the Latin-1 capitals
    0xc0..0xde other than the multiplication sign move up by 32. *)
Definition lower_char (c : ascii) : ascii :=
  if char_between 65 90 c
     || (char_between 192 222 c && negb (code c =? 215)%N)
  then ascii_of_N (code c + 32)
  else c.

Fixpoint lower (s : string) : string :=
  match s with
  | EmptyString => EmptyString
  | String c r => String (lower_char c) (lower r)
  end.

Fixpoint forallb_str (p : ascii -> bool) (s : string) : bool :=
  match s with
  | EmptyString => true
  | String c r => p c && forallb_str p r
  end.

Fixpoint existsb_str (p : ascii -> bool) (s : string) : bool :=
  match s with
  | EmptyString => false
  | String c r => p c || existsb_str p r
  end.

Definition is_empty (s : string) : bool :=
  match s with EmptyString => true | _ => false end.

(** [s.split(sep)] for a one-character separator: never empty, keeps
    empty pieces. *)
Fixpoint split (sep : ascii) (s : string) : list string :=
  match s with
  | EmptyString => [EmptyString]
  | String c r =>
      if Ascii.eqb c sep then EmptyString :: split sep r
      else match split sep r with
           | h :: t => String c h :: t
           | [] => [String c EmptyString]
           end
  end.

(** [s.lstrip()], [s.rstrip()], [s.strip()] *)
Fixpoint lstrip (s : string) : string :=
  match s with
  | EmptyString => EmptyString
  | String c r => if is_space c then lstrip r else s
  end.

Fixpoint rstrip (s : string) : string :=
  match s with
  | EmptyString => EmptyString
  | String c r =>
      let r' := rstrip r in
      if is_space c && is_empty r' then EmptyString else String c r'
  end.

Definition strip (s : string) : string := rstrip (lstrip s).

(** [s.split()] without argument: the maximal runs of non-space
    characters. *)
Fixpoint split_whitespace (s : string) : list string :=
  match s with
  | EmptyString => []
  | String c r =>
      if is_space c then split_whitespace r
      else match r with
           | EmptyString => [String c EmptyString]
           | String c' _ =>
               if is_space c' then String c EmptyString :: split_whitespace r
               else match split_whitespace r with
                    | h :: t => String c h :: t
                    | [] => [String c EmptyString]
                    end
           end
  end.

(** [s.endswith(c)] for a one-character suffix. *)
Fixpoint endswith (s : string) (c : ascii) : bool :=
  match s with
  | EmptyString => false
  | String x EmptyString => Ascii.eqb x c
  | String _ r => endswith r c
  end.

(** ** Floats obtained from digit strings *)

Inductive pyfloat : Type :=
| NaN
| Fin (v : Z)
| PInf.

(** The double nearest to the natural number [n], ties to even; from
    [2^1024] on the result is infinite. *)
Definition round_double (n : Z) : pyfloat :=
  if n <? 2 ^ 53 then Fin n
  else
    let e := Z.log2 n - 52 in
    let q := n / 2 ^ e in
    let r := n mod 2 ^ e in
    let half := 2 ^ (e - 1) in
    let q' := if r <? half then q
              else if half <? r then q + 1
              else if Z.even q then q else q + 1 in
    let v := q' * 2 ^ e in
    if 2 ^ 1024 <=? v then PInf else Fin v.

Definition digit_value (c : ascii) : Z := Z.of_N (code c) - 48.

Fixpoint digits_value_from (acc : Z) (s : string) : Z :=
  match s with
  | EmptyString => acc
  | String c r => digits_value_from (10 * acc + digit_value c) r
  end.

Definition digits_value (s : string) : Z := digits_value_from 0 s.

(** [float(s)] on the literals made of decimal digits, with the
    surrounding white space [float] ignores.  Every other literal form
    (sign, point, exponent, underscores, inf, nan) is outside what the
    guard of [safe_parse_int] lets through; the model raises there,
    which is the pessimistic choice when showing that nothing is
    raised. *)
Definition py_float (s : string) : result pyfloat :=
  let t := strip s in
  if negb (is_empty t) && forallb_str is_digit t
  then Ok (round_double (digits_value t))
  else Raise ValueError.

(** Comparisons of a float with a Python int, and of two floats; every
    comparison with NaN is false. *)
Definition float_ge_int (x : pyfloat) (k : Z) : bool :=
  match x with NaN => false | Fin v => k <=? v | PInf => true end.

Definition float_le_int (x : pyfloat) (k : Z) : bool :=
  match x with NaN => false | Fin v => v <=? k | PInf => false end.

Definition float_gt_int (x : pyfloat) (k : Z) : bool :=
  match x with NaN => false | Fin v => k <? v | PInf => true end.

Definition float_le (x y : pyfloat) : bool :=
  match x, y with
  | NaN, _ | _, NaN => false
  | Fin a, Fin b => a <=? b
  | Fin _, PInf => true
  | PInf, Fin _ => false
  | PInf, PInf => true
  end.

(** ** Regular expressions of the module *)

(** [re.match(r"^\d+$", value)]: one or more digits up to the end of
    the string, or up to a single final line feed. *)
Fixpoint re_match_digits (value : string) : bool :=
  match value with
  | EmptyString => false
  | String c r =>
      is_digit c &&
      match r with
      | EmptyString => true
      | String "010"%char EmptyString => true
      | _ => re_match_digits r
      end
  end.

(** [re.search(r"[^\d]", value)] *)
Definition re_search_non_digit (value : string) : bool :=
  existsb_str (fun c => negb (is_digit c)) value.

(** [re.search(r"[^\d,/*-]", value)] *)
Definition is_field_char (c : ascii) : bool :=
  is_digit c || Ascii.eqb c "," || Ascii.eqb c "/" || Ascii.eqb c "*"
  || Ascii.eqb c "-".

Definition re_search_bad_char (value : string) : bool :=
  existsb_str (fun c => negb (is_field_char c)) value.

(** [re.search(r"\/[a-zA-Z]", value)] *)
Fixpoint re_search_slash_letter (value : string) : bool :=
  match value with
  | EmptyString => false
  | String c r =>
      match r with
      | EmptyString => false
      | String c' _ =>
          (Ascii.eqb c "/" && is_letter c') || re_search_slash_letter r
      end
  end.

(** A [Dict[str, str]] literal and [d.get(key, default)]. *)
Definition dict : Type := list (string * string).

Fixpoint dict_get (d : dict) (key default : string) : string :=
  match d with
  | [] => default
  | (k, v) :: d' => if String.eqb k key then v else dict_get d' key default
  end.

(** [re.sub(r"[a-z]{3}", replace_alias, s)] where [replace_alias]
    returns [table.get(m.lower(), m)] for the matched text [m]: the
    string is scanned from the left; three lower-case letters in a row
    are one match, replaced as a block, and the scan resumes after
    them. *)
Fixpoint re_sub_alias (table : dict) (s : string) : string :=
  match s with
  | EmptyString => EmptyString
  | String a t1 =>
      match t1 with
      | String b (String c t3) =>
          if is_lower_letter a && is_lower_letter b && is_lower_letter c
          then
            let m := String a (String b (String c EmptyString)) in
            dict_get table (lower m) m ++ re_sub_alias table t3
          else String a (re_sub_alias table t1)
      | _ => String a (re_sub_alias table t1)
      end
  end.

(** ** The validator *)

Definition safe_parse_int (value : string) : result pyfloat :=
  if re_match_digits value then py_float value else Ok NaN.

Definition is_wildcard (value : string) : bool := String.eqb value "*".

Definition is_question_mark (value : string) : bool := String.eqb value "?".

Definition is_in_range (value : pyfloat) (start stop : Z) : bool :=
  float_ge_int value start && float_le_int value stop.

Definition is_valid_range (value : string) (start stop : Z) : result bool :=
  let sides := split "-" value in
  if (List.length sides =? 1)%nat then
    Ok (is_wildcard value)
    ||| (v <- safe_parse_int value ;; Ok (is_in_range v start stop))
  else if (List.length sides =? 2)%nat then
    match sides with
    | [s; b] =>
        small <- safe_parse_int s ;;
        big <- safe_parse_int b ;;
        Ok (float_le small big
            && is_in_range small start stop
            && is_in_range big start stop)
    | _ => Raise ValueError
    end
  else Ok false.

Definition is_valid_step (value : option string) : result bool :=
  match value with
  | None => Ok true
  | Some v =>
      Ok (negb (re_search_non_digit v))
      &&& (x <- safe_parse_int v ;; Ok (float_gt_int x 0))
  end.

(** The body of the loop over [conditions]; the first failing term
    returns [False] from the function. *)
Fixpoint validate_conditions (conditions : list string) (start stop : Z)
  : result bool :=
  match conditions with
  | [] => Ok true
  | condition :: rest =>
      let splits := split "/" condition in
      if endswith (strip condition) "/" then Ok false
      else if (2 <? List.length splits)%nat then Ok false
      else
        match splits with
        | [] => Raise IndexError
        | range_expr :: _ =>
            let step_expr :=
              if (List.length splits =? 2)%nat then Some (nth 1 splits "")
              else None in
            ok <- is_valid_range range_expr start stop
                  &&& is_valid_step step_expr ;;
            if negb ok then Ok false
            else validate_conditions rest start stop
        end
  end.

Definition validate_for_range (value : string) (start stop : Z)
  : result bool :=
  if re_search_bad_char value then Ok false
  else validate_conditions (split "," value) start stop.

Definition has_valid_seconds (seconds : string) : result bool :=
  validate_for_range seconds 0 59.

Definition has_valid_minutes (minutes : string) : result bool :=
  validate_for_range minutes 0 59.

Definition has_valid_hours (hours : string) : result bool :=
  validate_for_range hours 0 23.

Definition has_valid_days (days : string) (allow_blank_day : bool)
  : result bool :=
  Ok (allow_blank_day && is_question_mark days)
  ||| validate_for_range days 1 31.

Definition month_alias : dict :=
  [("jan", "1"); ("feb", "2"); ("mar", "3"); ("apr", "4"); ("may", "5");
   ("jun", "6"); ("jul", "7"); ("aug", "8"); ("sep", "9"); ("oct", "10");
   ("nov", "11"); ("dec", "12")].

Definition has_valid_months (months : string) (alias : bool) : result bool :=
  if re_search_slash_letter months then Ok false
  else if alias then
    let remapped_months := re_sub_alias month_alias (lower months) in
    validate_for_range remapped_months 1 12
  else validate_for_range months 1 12.

Definition weekdays_alias : dict :=
  [("sun", "0"); ("mon", "1"); ("tue", "2"); ("wed", "3"); ("thu", "4");
   ("fri", "5"); ("sat", "6")].

(** [Options]; [WeekdayOptions] is the same dictionary read at four of
    its keys. *)
Record Options : Type := {
  alias : bool;
  seconds : bool;
  allowBlankDay : bool;
  allowSevenAsSunday : bool;
  allowNthWeekdayOfMonth : bool
}.

Definition has_valid_weekdays (weekdays : string) (options : Options)
  : result bool :=
  let allow_blank_day := allowBlankDay options in
  let allow_seven_as_sunday := allowSevenAsSunday options in
  let allow_nth_weekday_of_month := allowNthWeekdayOfMonth options in
  if allow_blank_day && is_question_mark weekdays then Ok true
  else if negb allow_blank_day && is_question_mark weekdays then Ok false
  else if re_search_slash_letter weekdays then Ok false
  else
    let remapped_weekdays :=
      if alias options then re_sub_alias weekdays_alias (lower weekdays)
      else weekdays in
    let max_weekday_num := if allow_seven_as_sunday then 7 else 6 in
    let split_by_hash := split "#" remapped_weekdays in
    if allow_nth_weekday_of_month && (2 <=? List.length split_by_hash)%nat then
      if (2 <? List.length split_by_hash)%nat then Ok false
      else
        match firstn 2 split_by_hash with
        | [weekday; occurrence] =>
            (o <- safe_parse_int occurrence ;; Ok (is_in_range o 1 5))
            &&& (w <- safe_parse_int weekday ;;
                 Ok (is_in_range w 0 max_weekday_num))
        | _ => Raise ValueError
        end
    else validate_for_range remapped_weekdays 0 max_weekday_num.

Definition has_compatible_day_format (days weekdays : string)
  (allow_blank_day : bool) : bool :=
  negb (allow_blank_day && is_question_mark days
        && is_question_mark weekdays).

Definition split_cron (cron : string) : list string :=
  split_whitespace (strip cron).

Definition default_options : Options :=
  {| alias := false; seconds := false; allowBlankDay := false;
     allowSevenAsSunday := false; allowNthWeekdayOfMonth := false |}.

(** [{**default_options, **(partial_options or {})}]: a key present in
    the caller's dictionary overrides the default. *)
Fixpoint lookup (key : string) (d : list (string * bool)) : option bool :=
  match d with
  | [] => None
  | (k, v) :: d' => if String.eqb k key then Some v else lookup key d'
  end.

Definition merge_options (defaults : Options)
  (partial_options : option (list (string * bool))) : Options :=
  let p := match partial_options with Some p => p | None => [] end in
  let pick key d := match lookup key p with Some b => b | None => d end in
  {| alias := pick "alias" (alias defaults);
     seconds := pick "seconds" (seconds defaults);
     allowBlankDay := pick "allowBlankDay" (allowBlankDay defaults);
     allowSevenAsSunday :=
       pick "allowSevenAsSunday" (allowSevenAsSunday defaults);
     allowNthWeekdayOfMonth :=
       pick "allowNthWeekdayOfMonth" (allowNthWeekdayOfMonth defaults) |}.

Definition is_valid_cron (cron : string)
  (partial_options : option (list (string * bool))) : result bool :=
  let options := merge_options default_options partial_options in
  let splits := split_cron cron in
  if ((if seconds options then 6 else 5) <? List.length splits)%nat
     || (List.length splits <? 5)%nat
  then Ok false
  else
    popped <-
      (if (List.length splits =? 6)%nat then
         match splits with
         | sec :: rest => c <- has_valid_seconds sec ;; Ok (rest, [c])
         | [] => Raise IndexError
         end
       else Ok (splits, [])) ;;
    let '(splits, checks) := popped in
    match splits with
    | [minutes; hours; days; months; weekdays] =>
        c1 <- has_valid_minutes minutes ;;
        c2 <- has_valid_hours hours ;;
        c3 <- has_valid_days days (allowBlankDay options) ;;
        c4 <- has_valid_months months (alias options) ;;
        c5 <- has_valid_weekdays weekdays options ;;
        let c6 :=
          has_compatible_day_format days weekdays (allowBlankDay options) in
        Ok (forallb (fun c => c) (checks ++ [c1; c2; c3; c4; c5; c6]))
    | _ => Ok false
    end.

(** A single line feed, the one character [$] lets through after the
    digits. *)
Definition nl : string := String "010"%char EmptyString.

(** The call returns a value: it does not raise. *)
Definition returns {A : Type} (m : result A) : Prop := exists a, m = Ok a.

(** What [safe_parse_int] computes when [float] does not raise. *)
Definition parsed (value : string) : pyfloat :=
  if re_match_digits value then round_double (digits_value (strip value))
  else NaN.

(** A bare integer: one or more decimal digits and nothing else. *)
Definition bare_integer (s : string) : bool :=
  negb (is_empty s) && forallb_str is_digit s.

(** [c in s] for one character. *)
Definition contains (c : ascii) (s : string) : bool :=
  existsb_str (Ascii.eqb c) s.

(** [s.count(c)] for one character. *)
Fixpoint count_char (c : ascii) (s : string) : nat :=
  match s with
  | EmptyString => 0%nat
  | String x r => ((if Ascii.eqb x c then 1 else 0) + count_char c r)%nat
  end.

(** [re.match(r"[a-z]{3}", s)]: the string starts with three
    lower-case letters. *)
Definition starts_three_lower (s : string) : bool :=
  match s with
  | String a (String b (String c _)) =>
      is_lower_letter a && is_lower_letter b && is_lower_letter c
  | _ => false
  end.

(** [re.search(r"[a-z]{3}", s)] *)
Fixpoint re_search_three_lower (s : string) : bool :=
  match s with
  | EmptyString => false
  | String _ r => starts_three_lower s || re_search_three_lower r
  end.




(** The string [has_valid_weekdays] names [remapped_weekdays]. *)
Definition remapped_weekdays (weekdays : string) (options : Options)
  : string :=
  if alias options then re_sub_alias weekdays_alias (lower weekdays)
  else weekdays.

(** The bounds the six field validators pass to [validate_for_range]. *)
Definition field_bounds : list (Z * Z) :=
  [(0, 59); (0, 59); (0, 23); (1, 31); (1, 12); (0, 6); (0, 7)].

(** [sep.join(items)] *)
Fixpoint join (sep : string) (items : list string) : string :=
  match items with
  | [] => EmptyString
  | [x] => x
  | x :: rest => x ++ sep ++ join sep rest
  end.

(** A non-empty string without white space: what [split_cron] yields. *)
Definition is_field (f : string) : bool :=
  negb (is_empty f) && negb (existsb_str is_space f).

(** The characters of a weekday#n field whose two parts parse: digits,
    the hash, and the line feed [$] lets through. *)
Definition is_number_char (c : ascii) : bool :=
  is_digit c || Ascii.eqb c "#" || Ascii.eqb c "010".

(** A character alias resolution cannot touch: lower-casing leaves it
    as it is and it is not one of a-z. *)
Definition is_plain (c : ascii) : bool :=
  negb (is_lower_letter c) && Ascii.eqb (lower_char c) c.

(** One configuration enables at least the options of another. *)
Definition options_le (o o' : Options) : Prop :=
  (alias o = true -> alias o' = true)
  /\ (seconds o = true -> seconds o' = true)
  /\ (allowBlankDay o = true -> allowBlankDay o' = true)
  /\ (allowSevenAsSunday o = true -> allowSevenAsSunday o' = true)
  /\ (allowNthWeekdayOfMonth o = true -> allowNthWeekdayOfMonth o' = true).

(** The characters an accepted expression can be made of under a
    configuration. *)
Definition allowed_char (o : Options) (c : ascii) : bool :=
  is_space c || is_field_char c
  || (alias o && is_letter c)
  || (allowBlankDay o && Ascii.eqb c "?")
  || (allowNthWeekdayOfMonth o && Ascii.eqb c "#").

(** The verdicts the assertions of the test suite look at. *)
Definition accepts (cron : string) (partial_options : list (string * bool))
  : bool :=
  match is_valid_cron cron (Some partial_options) with
  | Ok b => b
  | Raise _ => false
  end.

Definition rejects (cron : string) (partial_options : list (string * bool))
  : bool :=
  match is_valid_cron cron (Some partial_options) with
  | Ok b => negb b
  | Raise _ => false
  end.

(** * Properties *)

(** ** Agreement with the test suite

    A sample of the assertions of [test_validator.py], evaluated on the
    embedding. *)

Example test_validator_sample :
  forallb (fun b => b)
    [ rejects "* * * *" [];
      rejects "* * * * * * *" [];
      accepts "* * * * * *" [("seconds", true)];
      accepts " * * * * * " [];
      rejects "1* * * * *" [];
      rejects "* *1 * * *" [];
      accepts "59 * * * * *" [("seconds", true)];
      rejects "60 * * * * *" [("seconds", true)];
      accepts "* 23 * * *" [];
      rejects "* 24 * * *" [];
      rejects "* * 0 * *" [];
      rejects "* * 32 * *" [];
      rejects "* * * 13 *" [];
      accepts "* * * oct,OCT *" [("alias", true)];
      rejects "* * * jan *" [];
      rejects "* * * january *" [("alias", true)];
      rejects "* * * */jan *" [("alias", true)];
      rejects "* * * * 7" [];
      accepts "* * * * 7" [("allowSevenAsSunday", true)];
      accepts "* * * * sat,SAT" [("alias", true)];
      rejects "* * * * sunday" [("alias", true)];
      rejects "* * * * */sun" [("alias", true)];
      accepts "* * * * 0-6" [("allowNthWeekdayOfMonth", true)];
      accepts "1-10,11-20,21-30 * * * *" [];
      rejects "10-1,20-11,30-21 * * * *" [];
      accepts "* * * 1-2/2,3-4/2 *" [];
      accepts "1-10,*/2 * * * *" [];
      rejects "1-10,*/0 * * * *" [];
      rejects "* * * * 0-2,*/-1" [];
      rejects "1-10-20 * * * *" [("seconds", true)];
      rejects "* * * 1/2/10 *" [];
      rejects "*/ * * * *" [];
      rejects "* * * /* *" [];
      rejects "1-* * * * *" [];
      rejects "* - * * *" [];
      rejects "* * * -1 *" [];
      accepts
        ("10,*/15,12-14,15-30/5 10,*/15,12-14,15-30/5 10,*/12,12-14,5-10/2 "
         ++ "10,*/7,12-15,15-30/5 1,*/3,4-5,jun-oct/2 0,*/3,2-4,mon-fri/2")
        [("seconds", true); ("alias", true)];
      accepts "05 05 * * *" [];
      rejects "* * ? * *" [];
      accepts "* * ? * *" [("allowBlankDay", true)];
      accepts "* * * * ?" [("alias", true); ("allowBlankDay", true)];
      rejects "* * ? * ?" [("allowBlankDay", true)];
      rejects "* * ? * ?" [("alias", true)];
      accepts "* * * * 1#2" [("allowNthWeekdayOfMonth", true); ("alias", true)];
      accepts "* * * * WED#5"
        [("allowNthWeekdayOfMonth", true); ("alias", true)];
      rejects "* * * * WED#6"
        [("allowNthWeekdayOfMonth", true); ("alias", true)];
      rejects "* * * * mon#2" [("allowNthWeekdayOfMonth", true)];
      accepts "59 23 * * SAT" [("alias", true)];
      accepts "0 0,12 1 */2 *" [] ]
  = true.
Proof. vm_compute. reflexivity. Qed.

(** ** Characters *)

Ltac by_cases_on_char c :=
  destruct c as [[] [] [] [] [] [] [] []]; vm_compute; congruence.

Lemma digit_not_space c : is_digit c = true -> is_space c = false.
Proof. by_cases_on_char c. Qed.

Lemma digit_is_field_char c : is_digit c = true -> is_field_char c = true.
Proof. by_cases_on_char c. Qed.


Lemma digit_value_range c : is_digit c = true -> 0 <= digit_value c <= 9.
Proof.
  destruct c as [[] [] [] [] [] [] [] []]; vm_compute;
    (congruence || (intros _; split; congruence)).
Qed.

Lemma digit_neq c x :
  is_digit x = false -> is_digit c = true -> Ascii.eqb c x = false.
Proof.
  intros Hx Hc. destruct (Ascii.eqb_spec c x) as [->|]; congruence.
Qed.

(** ** Strings *)

Lemma forallb_str_impl (p q : ascii -> bool) s :
  (forall c, p c = true -> q c = true) ->
  forallb_str p s = true -> forallb_str q s = true.
Proof.
  intros Hpq. induction s as [|c r IH]; simpl; auto.
  intros H. apply andb_true_iff in H as [Hc Hr].
  rewrite (Hpq _ Hc), (IH Hr). reflexivity.
Qed.

Lemma existsb_str_false (p : ascii -> bool) s :
  forallb_str (fun c => negb (p c)) s = true -> existsb_str p s = false.
Proof.
  induction s as [|c r IH]; simpl; auto.
  intros H. apply andb_true_iff in H as [Hc Hr].
  apply negb_true_iff in Hc. rewrite Hc, (IH Hr). reflexivity.
Qed.

Lemma existsb_str_app (p : ascii -> bool) s t :
  existsb_str p (s ++ t) = existsb_str p s || existsb_str p t.
Proof.
  induction s as [|c r IH]; simpl; auto.
  rewrite IH, orb_assoc. reflexivity.
Qed.

Lemma forallb_str_app (p : ascii -> bool) s t :
  forallb_str p (s ++ t) = forallb_str p s && forallb_str p t.
Proof.
  induction s as [|c r IH]; simpl; auto.
  rewrite IH, andb_assoc. reflexivity.
Qed.


Lemma split_nonempty sep s : split sep s <> [].
Proof.
  destruct s as [|c r]; simpl; [discriminate|].
  destruct (Ascii.eqb c sep); [discriminate|].
  destruct (split sep r); discriminate.
Qed.

Lemma split_without sep s :
  contains sep s = false -> split sep s = [s].
Proof.
  unfold contains. induction s as [|c r IH]; simpl; auto.
  intros H. apply orb_false_iff in H as [Hc Hr].
  rewrite Ascii.eqb_sym, Hc, (IH Hr). reflexivity.
Qed.

Lemma lstrip_id s :
  forallb_str (fun c => negb (is_space c)) s = true -> lstrip s = s.
Proof.
  destruct s as [|c r]; simpl; auto.
  intros H. apply andb_true_iff in H as [Hc _].
  apply negb_true_iff in Hc. rewrite Hc. reflexivity.
Qed.

Lemma rstrip_id s :
  forallb_str (fun c => negb (is_space c)) s = true -> rstrip s = s.
Proof.
  induction s as [|c r IH]; simpl; auto.
  intros H. apply andb_true_iff in H as [Hc Hr].
  apply negb_true_iff in Hc. rewrite Hc, (IH Hr). reflexivity.
Qed.

Lemma strip_id s :
  forallb_str (fun c => negb (is_space c)) s = true -> strip s = s.
Proof.
  intros H. unfold strip. rewrite (lstrip_id _ H). apply rstrip_id, H.
Qed.

Lemma digits_no_space s :
  forallb_str is_digit s = true ->
  forallb_str (fun c => negb (is_space c)) s = true.
Proof.
  apply forallb_str_impl. intros c Hc.
  rewrite (digit_not_space _ Hc). reflexivity.
Qed.

(** ** The pattern [^\d+$] and [float] *)

Lemma re_match_digits_step c r :
  re_match_digits (String c r)
  = is_digit c && (is_empty r || String.eqb r nl || re_match_digits r).
Proof.
  destruct r as [|c' r']; [simpl; rewrite andb_true_r; reflexivity|].
  destruct c' as [[] [] [] [] [] [] [] []]; destruct r'; reflexivity.
Qed.

Lemma re_match_digits_shape v :
  re_match_digits v = true ->
  exists d, (v = d \/ v = d ++ nl) /\ bare_integer d = true.
Proof.
  induction v as [|c r IH]; [discriminate|].
  rewrite re_match_digits_step. intros H.
  apply andb_true_iff in H as [Hc H].
  apply orb_true_iff in H as [H|H]; [apply orb_true_iff in H as [H|H]|].
  - destruct r; [|discriminate].
    exists (String c ""). split; [now left|].
    unfold bare_integer. simpl. rewrite Hc. reflexivity.
  - apply String.eqb_eq in H. subst r.
    exists (String c ""). split; [now right|].
    unfold bare_integer. simpl. rewrite Hc. reflexivity.
  - destruct (IH H) as (d & Hd & Hb).
    exists (String c d). split.
    + destruct Hd as [->| ->]; [now left|now right].
    + unfold bare_integer in *. simpl. rewrite Hc.
      apply andb_true_iff in Hb as [_ ->]. reflexivity.
Qed.

Lemma bare_integer_match d : bare_integer d = true -> re_match_digits d = true.
Proof.
  unfold bare_integer. induction d as [|c r IH]; [discriminate|].
  simpl negb. rewrite andb_true_l. simpl forallb_str. intros H.
  apply andb_true_iff in H as [Hc Hr].
  rewrite re_match_digits_step, Hc. destruct r as [|c' r']; [reflexivity|].
  rewrite IH; [apply orb_true_r|exact Hr].
Qed.

Lemma rstrip_digits_nl d :
  forallb_str is_digit d = true -> rstrip (d ++ nl) = d.
Proof.
  induction d as [|c r IH]; [reflexivity|].
  simpl. intros H. apply andb_true_iff in H as [Hc Hr].
  rewrite (IH Hr), (digit_not_space _ Hc). reflexivity.
Qed.

Lemma strip_bare_integer d : bare_integer d = true -> strip d = d.
Proof.
  unfold bare_integer. intros H. apply andb_true_iff in H as [_ H].
  apply strip_id, digits_no_space, H.
Qed.

Lemma strip_bare_integer_nl d : bare_integer d = true -> strip (d ++ nl) = d.
Proof.
  unfold bare_integer. intros H. apply andb_true_iff in H as [Hne H].
  unfold strip. destruct d as [|c r]; [discriminate|].
  replace (lstrip (String c r ++ nl)) with (String c r ++ nl).
  - apply rstrip_digits_nl, H.
  - simpl in *. apply andb_true_iff in H as [Hc _].
    rewrite (digit_not_space _ Hc). reflexivity.
Qed.

Lemma strip_of_match v :
  re_match_digits v = true -> bare_integer (strip v) = true.
Proof.
  intros H. destruct (re_match_digits_shape _ H) as (d & [->| ->] & Hd).
  - rewrite strip_bare_integer; assumption.
  - rewrite strip_bare_integer_nl; assumption.
Qed.

Lemma py_float_of_match v :
  re_match_digits v = true ->
  py_float v = Ok (round_double (digits_value (strip v))).
Proof.
  intros H. unfold py_float. pose proof (strip_of_match _ H) as Hb.
  unfold bare_integer in Hb. rewrite Hb. reflexivity.
Qed.

Lemma safe_parse_int_eq v : safe_parse_int v = Ok (parsed v).
Proof.
  unfold safe_parse_int, parsed.
  destruct (re_match_digits v) eqn:H; [|reflexivity].
  apply py_float_of_match, H.
Qed.

Lemma parsed_bare_integer d :
  bare_integer d = true -> parsed d = round_double (digits_value d).
Proof.
  intros H. unfold parsed.
  rewrite (bare_integer_match _ H), (strip_bare_integer _ H). reflexivity.
Qed.

(** ** Rounding to a double *)

Lemma round_double_small n : n < 2 ^ 53 -> round_double n = Fin n.
Proof.
  intros H. unfold round_double.
  destruct (Z.ltb_spec n (2 ^ 53)); [reflexivity|lia].
Qed.

Lemma round_double_large n :
  2 ^ 53 <= n ->
  round_double n = PInf \/ exists v, round_double n = Fin v /\ 2 ^ 53 <= v.
Proof.
  intros H. unfold round_double.
  destruct (Z.ltb_spec n (2 ^ 53)) as [Hlt|_]; [lia|].
  set (e := Z.log2 n - 52).
  assert (Hpos : 0 < n) by (assert (0 < 2 ^ 53) by reflexivity; lia).
  assert (Hlog : 53 <= Z.log2 n).
  { change 53 with (Z.log2 (2 ^ 53)). apply Z.log2_le_mono, H. }
  assert (He : 1 <= e) by (unfold e; lia).
  assert (Hpe : 2 <= 2 ^ e).
  { change 2 with (2 ^ 1) at 1. apply Z.pow_le_mono_r; lia. }
  assert (Hq : 2 ^ 52 <= n / 2 ^ e).
  { apply Z.div_le_lower_bound; [lia|].
    rewrite <- Z.pow_add_r by lia.
    replace (e + 52) with (Z.log2 n) by (unfold e; lia).
    apply Z.log2_spec, Hpos. }
  set (q := n / 2 ^ e) in *.
  set (q' := if n mod 2 ^ e <? 2 ^ (e - 1) then q
             else if 2 ^ (e - 1) <? n mod 2 ^ e then q + 1
             else if Z.even q then q else q + 1).
  assert (Hq' : q <= q').
  { unfold q'. destruct (_ <? _); [lia|].
    destruct (_ <? _); [lia|]. destruct (Z.even q); lia. }
  destruct (2 ^ 1024 <=? q' * 2 ^ e); [now left|right].
  eexists. split; [reflexivity|].
  assert (H52 : 2 ^ 53 = 2 ^ 52 * 2) by reflexivity.
  rewrite H52. generalize dependent (2 ^ 52). intros. nia.
Qed.

Lemma is_in_range_round n start stop :
  stop < 2 ^ 53 ->
  is_in_range (round_double n) start stop = (start <=? n) && (n <=? stop).
Proof.
  intros Hs. destruct (Z.lt_ge_cases n (2 ^ 53)) as [Hn|Hn].
  - rewrite (round_double_small _ Hn). reflexivity.
  - replace (n <=? stop) with false by (symmetry; apply Z.leb_gt; lia).
    rewrite andb_false_r. unfold is_in_range.
    destruct (round_double_large _ Hn) as [->|(v & -> & Hv)]; simpl.
    + reflexivity.
    + replace (v <=? stop) with false by (symmetry; apply Z.leb_gt; lia).
      apply andb_false_r.
Qed.

Lemma float_gt_round n : float_gt_int (round_double n) 0 = (0 <? n).
Proof.
  destruct (Z.lt_ge_cases n (2 ^ 53)) as [Hn|Hn].
  - rewrite (round_double_small _ Hn). reflexivity.
  - assert (0 < 2 ^ 53) by reflexivity.
    replace (0 <? n) with true by (symmetry; apply Z.ltb_lt; lia).
    destruct (round_double_large _ Hn) as [->|(v & -> & Hv)]; simpl; auto.
    apply Z.ltb_lt. lia.
Qed.

(** ** Calls that return *)

Lemma returns_ok {A : Type} (a : A) : returns (Ok a).
Proof. exists a. reflexivity. Qed.

Lemma returns_bind {A B : Type} (m : result A) (k : A -> result B) :
  returns m -> (forall a, returns (k a)) -> returns (bind m k).
Proof.
  intros [a ->] Hk. simpl. apply Hk.
Qed.

Lemma returns_and a b : returns a -> returns b -> returns (a &&& b).
Proof.
  intros Ha Hb. apply returns_bind; [exact Ha|].
  intros []; [exact Hb|apply returns_ok].
Qed.

Lemma returns_or a b : returns a -> returns b -> returns (a ||| b).
Proof.
  intros Ha Hb. apply returns_bind; [exact Ha|].
  intros []; [apply returns_ok|exact Hb].
Qed.

Lemma safe_parse_int_returns v : returns (safe_parse_int v).
Proof. rewrite safe_parse_int_eq. apply returns_ok. Qed.

Ltac returns_step :=
  first [ apply returns_ok
        | apply safe_parse_int_returns
        | apply returns_and
        | apply returns_or
        | apply returns_bind; [|intro] ].

Lemma is_valid_range_returns v start stop :
  returns (is_valid_range v start stop).
Proof.
  unfold is_valid_range.
  destruct (split "-" v) as [|s [|b [|? ?]]];
    cbn [List.length Nat.eqb]; repeat returns_step.
Qed.

Lemma is_valid_step_returns v : returns (is_valid_step v).
Proof.
  destruct v as [v|]; unfold is_valid_step; repeat returns_step.
Qed.

Lemma validate_conditions_returns conditions start stop :
  returns (validate_conditions conditions start stop).
Proof.
  induction conditions as [|condition rest IH]; simpl; [apply returns_ok|].
  destruct (endswith (strip condition) "/"); [apply returns_ok|].
  destruct (2 <? _)%nat; [apply returns_ok|].
  destruct (split "/" condition) as [|range_expr more] eqn:E.
  { now apply split_nonempty in E. }
  apply returns_bind.
  - apply returns_and;
      [apply is_valid_range_returns|apply is_valid_step_returns].
  - intros []; simpl; [exact IH|apply returns_ok].
Qed.

Lemma validate_for_range_returns v start stop :
  returns (validate_for_range v start stop).
Proof.
  unfold validate_for_range.
  destruct (re_search_bad_char v);
    [apply returns_ok|apply validate_conditions_returns].
Qed.

Lemma has_valid_days_returns days allow_blank_day :
  returns (has_valid_days days allow_blank_day).
Proof.
  unfold has_valid_days. apply returns_or;
    [apply returns_ok|apply validate_for_range_returns].
Qed.

Lemma has_valid_months_returns months use_alias :
  returns (has_valid_months months use_alias).
Proof.
  unfold has_valid_months.
  destruct (re_search_slash_letter months); [apply returns_ok|].
  destruct use_alias; apply validate_for_range_returns.
Qed.

Lemma has_valid_weekdays_returns weekdays options :
  returns (has_valid_weekdays weekdays options).
Proof.
  unfold has_valid_weekdays.
  destruct (_ && is_question_mark weekdays); [apply returns_ok|].
  destruct (_ && is_question_mark weekdays); [apply returns_ok|].
  destruct (re_search_slash_letter weekdays); [apply returns_ok|].
  set (remapped := if alias options then _ else _).
  destruct (allowNthWeekdayOfMonth options); simpl;
    [|apply validate_for_range_returns].
  destruct (split "#" remapped) as [|x [|y [|z l]]];
    cbn [List.length Nat.leb Nat.ltb firstn];
    try apply validate_for_range_returns; repeat returns_step.
Qed.

(** ** The top-level validator *)

Lemma is_valid_cron_five cron partial minutes hours days months weekdays :
  split_cron cron = [minutes; hours; days; months; weekdays] ->
  let options := merge_options default_options partial in
  exists c1 c2 c3 c4 c5,
    has_valid_minutes minutes = Ok c1
    /\ has_valid_hours hours = Ok c2
    /\ has_valid_days days (allowBlankDay options) = Ok c3
    /\ has_valid_months months (alias options) = Ok c4
    /\ has_valid_weekdays weekdays options = Ok c5
    /\ is_valid_cron cron partial =
       Ok (c1 && c2 && c3 && c4 && c5
           && has_compatible_day_format days weekdays
                (allowBlankDay options)).
Proof.
  intros H options.
  destruct (validate_for_range_returns minutes 0 59) as [c1 H1].
  destruct (validate_for_range_returns hours 0 23) as [c2 H2].
  destruct (has_valid_days_returns days (allowBlankDay options)) as [c3 H3].
  destruct (has_valid_months_returns months (alias options)) as [c4 H4].
  destruct (has_valid_weekdays_returns weekdays options) as [c5 H5].
  exists c1, c2, c3, c4, c5. repeat (split; [assumption|]).
  unfold is_valid_cron. fold options. rewrite H.
  cbn [List.length Nat.ltb Nat.leb Nat.eqb].
  unfold has_valid_minutes, has_valid_hours.
  destruct (seconds options); cbn [orb bind];
    rewrite H1, H2, H3, H4, H5; cbn [bind app forallb];
    rewrite andb_true_r, !andb_assoc; reflexivity.
Qed.

Lemma is_valid_cron_six cron partial sec minutes hours days months weekdays :
  split_cron cron = [sec; minutes; hours; days; months; weekdays] ->
  let options := merge_options default_options partial in
  seconds options = true ->
  exists c0 c1 c2 c3 c4 c5,
    has_valid_seconds sec = Ok c0
    /\ has_valid_minutes minutes = Ok c1
    /\ has_valid_hours hours = Ok c2
    /\ has_valid_days days (allowBlankDay options) = Ok c3
    /\ has_valid_months months (alias options) = Ok c4
    /\ has_valid_weekdays weekdays options = Ok c5
    /\ is_valid_cron cron partial =
       Ok (c0 && c1 && c2 && c3 && c4 && c5
           && has_compatible_day_format days weekdays
                (allowBlankDay options)).
Proof.
  intros H options Hs.
  destruct (validate_for_range_returns sec 0 59) as [c0 H0].
  destruct (validate_for_range_returns minutes 0 59) as [c1 H1].
  destruct (validate_for_range_returns hours 0 23) as [c2 H2].
  destruct (has_valid_days_returns days (allowBlankDay options)) as [c3 H3].
  destruct (has_valid_months_returns months (alias options)) as [c4 H4].
  destruct (has_valid_weekdays_returns weekdays options) as [c5 H5].
  exists c0, c1, c2, c3, c4, c5. repeat (split; [assumption|]).
  unfold is_valid_cron. fold options. rewrite H, Hs.
  cbn [List.length Nat.ltb Nat.leb Nat.eqb orb].
  unfold has_valid_seconds, has_valid_minutes, has_valid_hours.
  rewrite H0. cbn [bind]. rewrite H1, H2, H3, H4, H5.
  cbn [bind app forallb].
  rewrite andb_true_r, !andb_assoc; reflexivity.
Qed.


(** C1 as stated fails: with the seconds option enabled a five-field
    expression is still accepted. *)
Lemma five_fields_accepted_with_seconds :
  let partial_options := Some [("seconds", true)] in
  seconds (merge_options default_options partial_options) = true
  /\ List.length (split_cron "* * * * *") = 5%nat
  /\ is_valid_cron "* * * * *" partial_options = Ok true.
Proof. vm_compute. repeat split. Qed.

Lemma wrong_field_count cron partial_options :
  let options := merge_options default_options partial_options in
  let n := List.length (split_cron cron) in
  n <> 5%nat ->
  (seconds options = false \/ n <> 6%nat) ->
  is_valid_cron cron partial_options = Ok false.
Proof.
  intros options n H5 H6. unfold is_valid_cron. fold options.
  subst n.
  destruct (split_cron cron) as [|f1 [|f2 [|f3 [|f4 [|f5 [|f6 [|f7 l]]]]]]];
    cbn [List.length] in *; try congruence;
    destruct (seconds options); try reflexivity.
  destruct H6; congruence.
Qed.

(** C1, amended: [is_valid_cron] returns [False] unless the number of
    white-space separated fields is 5, or is 6 with the seconds option
    enabled. *)
Theorem field_count_required (cron : string)
  (partial_options : option (list (string * bool))) :
  let options := merge_options default_options partial_options in
  let n := List.length (split_cron cron) in
  n <> 5%nat ->
  (seconds options = false \/ n <> 6%nat) ->
  is_valid_cron cron partial_options = Ok false.
Proof.
  intros options n. apply wrong_field_count.
Qed.

Lemma field_count_required_witness :
  is_valid_cron "* * * *" None = Ok false
  /\ is_valid_cron "* * * * * *" None = Ok false.
Proof.
  split.
  - apply (field_count_required "* * * *" None);
      [vm_compute; congruence|left; reflexivity].
  - apply (field_count_required "* * * * * *" None);
      [vm_compute; congruence|left; reflexivity].
Defined.

(** ** Bare integers in the range and step grammar *)

Lemma no_bad_char s :
  forallb_str is_field_char s = true -> re_search_bad_char s = false.
Proof.
  intros H. apply existsb_str_false.
  revert H. apply forallb_str_impl. intros c ->. reflexivity.
Qed.

Lemma digits_without x s :
  is_digit x = false -> forallb_str is_digit s = true -> contains x s = false.
Proof.
  intros Hx H. apply existsb_str_false.
  revert H. apply forallb_str_impl. intros c Hc.
  rewrite Ascii.eqb_sym, (digit_neq _ _ Hx Hc). reflexivity.
Qed.

Lemma endswith_without c s : contains c s = false -> endswith s c = false.
Proof.
  unfold contains. induction s as [|x r IH]; [reflexivity|].
  simpl existsb_str. intros H. apply orb_false_iff in H as [Hx Hr].
  destruct r as [|y r']; [simpl; now rewrite Ascii.eqb_sym|].
  change (endswith (String x (String y r')) c)
    with (endswith (String y r') c).
  apply IH, Hr.
Qed.

Lemma bare_integer_digits s :
  bare_integer s = true -> forallb_str is_digit s = true.
Proof.
  unfold bare_integer. intros H. apply andb_true_iff in H as [_ H]. exact H.
Qed.

Lemma bare_integer_not_wildcard s :
  bare_integer s = true -> is_wildcard s = false.
Proof.
  intros H. unfold is_wildcard.
  destruct (String.eqb_spec s "*") as [->|]; [discriminate|reflexivity].
Qed.

Lemma is_valid_range_bare_integer s start stop :
  bare_integer s = true ->
  is_valid_range s start stop
  = Ok (is_in_range (round_double (digits_value s)) start stop).
Proof.
  intros H. pose proof (bare_integer_digits _ H) as Hd.
  unfold is_valid_range.
  rewrite (split_without "-" s) by (apply digits_without; auto).
  cbn [List.length Nat.eqb].
  rewrite (bare_integer_not_wildcard _ H), safe_parse_int_eq,
    (parsed_bare_integer _ H).
  reflexivity.
Qed.

Lemma validate_for_range_bare_integer s start stop :
  bare_integer s = true ->
  validate_for_range s start stop
  = Ok (is_in_range (round_double (digits_value s)) start stop).
Proof.
  intros H. pose proof (bare_integer_digits _ H) as Hd.
  unfold validate_for_range.
  rewrite no_bad_char
    by (revert Hd; apply forallb_str_impl, digit_is_field_char).
  rewrite (split_without "," s) by (apply digits_without; auto).
  cbn [validate_conditions].
  rewrite (strip_bare_integer _ H).
  rewrite endswith_without by (apply digits_without; auto).
  rewrite (split_without "/" s) by (apply digits_without; auto).
  cbn [List.length Nat.ltb Nat.leb Nat.eqb].
  rewrite (is_valid_range_bare_integer _ _ _ H).
  destruct (is_in_range _ _ _); reflexivity.
Qed.

Lemma field_bounds_small start stop :
  In (start, stop) field_bounds -> stop < 2 ^ 53.
Proof.
  unfold field_bounds. simpl. intros H.
  repeat (destruct H as [H|H]; [inversion H; subst; reflexivity|]).
  contradiction.
Qed.

(** C4: for each pair of bounds a field validator uses and every field
    that is a bare integer (decimal digits only, leading zeros
    allowed), [validate_for_range] accepts the field exactly when its
    decimal value lies within the bounds. *)
Theorem validate_for_range_scalar (s : string) (start stop : Z) :
  In (start, stop) field_bounds ->
  bare_integer s = true ->
  validate_for_range s start stop = Ok true
  <-> start <= digits_value s <= stop.
Proof.
  intros Hb Hs.
  rewrite (validate_for_range_bare_integer _ _ _ Hs).
  rewrite (is_in_range_round _ _ _ (field_bounds_small _ _ Hb)).
  split.
  - intros H. injection H as H. apply andb_true_iff in H as [H1 H2].
    apply Z.leb_le in H1, H2. lia.
  - intros [H1 H2]. apply Z.leb_le in H1, H2. rewrite H1, H2. reflexivity.
Qed.

Lemma validate_for_range_scalar_witness :
  digits_value "05" = 5 /\ validate_for_range "05" 1 12 = Ok true.
Proof.
  split; [reflexivity|].
  apply (validate_for_range_scalar "05" 1 12).
  - simpl. right. right. right. right. left. reflexivity.
  - reflexivity.
  - vm_compute. split; congruence.
Defined.

(** ** Splitting at a separator *)

Lemma length_split sep s :
  List.length (split sep s) = S (count_char sep s).
Proof.
  induction s as [|x r IH]; [reflexivity|].
  simpl. destruct (Ascii.eqb x sep); simpl; [now rewrite IH|].
  destruct (split sep r) eqn:E; [now apply split_nonempty in E|].
  exact IH.
Qed.



Lemma split_app sep l r :
  contains sep l = false ->
  split sep (l ++ String sep r) = l :: split sep r.
Proof.
  unfold contains. induction l as [|x l' IH]; simpl.
  - intros _. rewrite Ascii.eqb_refl. reflexivity.
  - intros H. apply orb_false_iff in H as [Hx Hl].
    rewrite Ascii.eqb_sym, Hx, (IH Hl). reflexivity.
Qed.

Lemma split_two sep l r :
  contains sep l = false -> contains sep r = false ->
  split sep (l ++ String sep r) = [l; r].
Proof.
  intros Hl Hr. rewrite (split_app _ _ _ Hl), (split_without _ _ Hr).
  reflexivity.
Qed.

(** ** Ranges *)



Lemma float_le_nan_r x : float_le x NaN = false.
Proof. destruct x; reflexivity. Qed.

Lemma in_range_fin x start stop :
  is_in_range x start stop = true ->
  exists v, x = Fin v /\ start <= v <= stop.
Proof.
  unfold is_in_range. destruct x as [|v|]; simpl; try discriminate.
  intros H. apply andb_true_iff in H as [H1 H2].
  apply Z.leb_le in H1, H2. exists v. split; [reflexivity|lia].
Qed.



(** ** Steps *)

Lemma no_non_digit v :
  negb (re_search_non_digit v) = forallb_str is_digit v.
Proof.
  unfold re_search_non_digit. induction v as [|c r IH]; [reflexivity|].
  simpl. rewrite negb_orb, negb_involutive, IH. reflexivity.
Qed.

Lemma is_valid_step_eq v :
  is_valid_step (Some v) = Ok (bare_integer v && (0 <? digits_value v)).
Proof.
  unfold is_valid_step. rewrite no_non_digit, safe_parse_int_eq.
  unfold bare_integer.
  destruct (forallb_str is_digit v) eqn:Hd;
    [|rewrite andb_false_r; reflexivity].
  destruct v as [|c r]; [reflexivity|].
  assert (Hb : bare_integer (String c r) = true)
    by (unfold bare_integer; rewrite Hd; reflexivity).
  cbn [and_then bind is_empty negb andb].
  rewrite (parsed_bare_integer _ Hb), float_gt_round. reflexivity.
Qed.




(** ** Alias substitution *)

Lemma lower_char_fixes_lower c :
  is_lower_letter c = true -> lower_char c = c.
Proof. by_cases_on_char c. Qed.

Lemma re_sub_alias_skip table a s :
  starts_three_lower (String a s) = false ->
  re_sub_alias table (String a s) = String a (re_sub_alias table s).
Proof.
  destruct s as [|b [|c r]]; try reflexivity.
  simpl. intros ->. reflexivity.
Qed.

Lemma re_sub_alias_block table a b c r :
  starts_three_lower (String a (String b (String c r))) = true ->
  re_sub_alias table (String a (String b (String c r)))
  = dict_get table (String a (String b (String c "")))
      (String a (String b (String c "")))
    ++ re_sub_alias table r.
Proof.
  simpl. intros H. rewrite H.
  apply andb_true_iff in H as [H Hc]. apply andb_true_iff in H as [Ha Hb].
  rewrite !lower_char_fixes_lower by assumption. reflexivity.
Qed.



Lemma re_sub_alias_no_match table s :
  re_search_three_lower s = false -> re_sub_alias table s = s.
Proof.
  induction s as [|a r IH]; [reflexivity|].
  cbn [re_search_three_lower]. intros H.
  apply orb_false_iff in H as [Hs Hr].
  rewrite (re_sub_alias_skip _ _ _ Hs), (IH Hr). reflexivity.
Qed.






(** ** Characters that alias resolution keeps *)

Lemma contains_app c s t : contains c (s ++ t) = contains c s || contains c t.
Proof. apply existsb_str_app. Qed.

Lemma lower_char_keeps_hash x :
  Ascii.eqb "#" (lower_char x) = Ascii.eqb "#" x.
Proof. destruct x as [[] [] [] [] [] [] [] []]; reflexivity. Qed.

Lemma lower_char_keeps_slash x :
  Ascii.eqb "/" (lower_char x) = Ascii.eqb "/" x.
Proof. destruct x as [[] [] [] [] [] [] [] []]; reflexivity. Qed.

Lemma contains_lower c s :
  (forall x, Ascii.eqb c (lower_char x) = Ascii.eqb c x) ->
  contains c (lower s) = contains c s.
Proof.
  intros H. unfold contains. induction s as [|x r IH]; [reflexivity|].
  simpl. rewrite H, IH. reflexivity.
Qed.

Lemma re_sub_alias_keeps table c :
  is_lower_letter c = false ->
  forall n s, (String.length s <= n)%nat ->
  contains c s = true -> contains c (re_sub_alias table s) = true.
Proof.
  intros Hc. induction n as [|n IH]; intros s Hn Hs.
  - destruct s; [discriminate|simpl in Hn; lia].
  - destruct s as [|a r]; [discriminate|].
    destruct (starts_three_lower (String a r)) eqn:Hst.
    + destruct r as [|b [|d r']]; try discriminate.
      rewrite re_sub_alias_block by exact Hst.
      rewrite contains_app. apply orb_true_iff. right.
      apply IH; [simpl in Hn |- *; lia|].
      simpl in Hst. apply andb_true_iff in Hst as [Hst Hd].
      apply andb_true_iff in Hst as [Ha Hb].
      unfold contains in Hs |- *. simpl in Hs.
      destruct (Ascii.eqb_spec c a) as [->|]; [congruence|].
      destruct (Ascii.eqb_spec c b) as [->|]; [congruence|].
      destruct (Ascii.eqb_spec c d) as [->|]; [congruence|].
      exact Hs.
    + rewrite re_sub_alias_skip by exact Hst.
      unfold contains in Hs |- *. simpl in Hs |- *.
      destruct (Ascii.eqb c a); [reflexivity|].
      apply (IH r); [simpl in Hn; lia|exact Hs].
Qed.

Lemma remapped_weekdays_keeps c weekdays options :
  is_lower_letter c = false ->
  (forall x, Ascii.eqb c (lower_char x) = Ascii.eqb c x) ->
  contains c weekdays = true ->
  contains c (remapped_weekdays weekdays options) = true.
Proof.
  intros Hc Hl H. unfold remapped_weekdays.
  destruct (alias options); [|exact H].
  apply (re_sub_alias_keeps _ _ Hc _ _ (le_n _)).
  rewrite (contains_lower _ _ Hl). exact H.
Qed.

Lemma bad_char_found c s :
  is_field_char c = false -> contains c s = true ->
  re_search_bad_char s = true.
Proof.
  intros Hc. unfold contains, re_search_bad_char.
  induction s as [|x r IH]; [discriminate|]. simpl.
  destruct (Ascii.eqb_spec c x) as [<-|_]; simpl.
  - rewrite Hc. reflexivity.
  - intros H. rewrite (IH H). apply orb_true_r.
Qed.

Lemma contains_not_question_mark c s :
  contains c s = true -> c <> "?"%char -> is_question_mark s = false.
Proof.
  intros H Hc. unfold is_question_mark.
  destruct (String.eqb_spec s "?") as [->|]; [|reflexivity].
  unfold contains in H. simpl in H. rewrite orb_false_r in H.
  apply Ascii.eqb_eq in H. contradiction.
Qed.

(** C10: with the nth-weekday option disabled, every day-of-week field
    that contains the character # is invalid. *)
Theorem hash_rejected_without_nth (weekdays : string) (options : Options) :
  allowNthWeekdayOfMonth options = false ->
  contains "#" weekdays = true ->
  has_valid_weekdays weekdays options = Ok false.
Proof.
  intros Hn Hh. unfold has_valid_weekdays.
  rewrite (contains_not_question_mark _ _ Hh) by discriminate.
  rewrite !andb_false_r.
  destruct (re_search_slash_letter weekdays); [reflexivity|].
  rewrite Hn. cbn [andb].
  fold (remapped_weekdays weekdays options).
  unfold validate_for_range.
  rewrite (bad_char_found "#"); [reflexivity|reflexivity|].
  apply remapped_weekdays_keeps;
    [reflexivity|apply lower_char_keeps_hash|exact Hh].
Qed.

Lemma hash_rejected_without_nth_witness :
  has_valid_weekdays "1#2" default_options = Ok false
  /\ has_valid_weekdays "mon#2"
       {| alias := true; seconds := false; allowBlankDay := true;
          allowSevenAsSunday := true; allowNthWeekdayOfMonth := false |}
     = Ok false.
Proof.
  split; apply hash_rejected_without_nth; reflexivity.
Defined.

(** ** The weekday#n form *)

Lemma parsed_nan c v :
  contains c v = true -> is_digit c = false -> c <> "010"%char ->
  parsed v = NaN.
Proof.
  intros Hc Hd Hn. unfold parsed.
  destruct (re_match_digits v) eqn:Hm; [|reflexivity].
  destruct (re_match_digits_shape _ Hm) as (d & Hv & Hb).
  apply bare_integer_digits in Hb.
  pose proof (digits_without _ _ Hd Hb) as Hcd.
  destruct Hv as [->| ->]; [congruence|].
  rewrite contains_app, Hcd in Hc. unfold contains, nl in Hc. simpl in Hc.
  rewrite orb_false_r in Hc. apply Ascii.eqb_eq in Hc. contradiction.
Qed.

Lemma slash_letter_contains_slash s :
  re_search_slash_letter s = true -> contains "/" s = true.
Proof.
  unfold contains. induction s as [|c r IH]; [discriminate|].
  destruct r as [|c' r']; [discriminate|].
  change (re_search_slash_letter (String c (String c' r')))
    with ((Ascii.eqb c "/" && is_letter c')
          || re_search_slash_letter (String c' r')).
  intros H. apply orb_true_iff in H as [H|H].
  - apply andb_true_iff in H as [H _]. apply Ascii.eqb_eq in H. subst c.
    reflexivity.
  - change (existsb_str (Ascii.eqb "/") (String c (String c' r')))
      with (Ascii.eqb "/" c || existsb_str (Ascii.eqb "/") (String c' r')).
    rewrite (IH H). apply orb_true_r.
Qed.

Lemma remapped_question_mark weekdays options :
  is_question_mark weekdays = true ->
  remapped_weekdays weekdays options = "?".
Proof.
  intros H. apply String.eqb_eq in H. subst weekdays.
  unfold remapped_weekdays. destruct (alias options); reflexivity.
Qed.

Lemma in_range_true_iff x start stop :
  is_in_range x start stop = true
  <-> exists v, x = Fin v /\ start <= v <= stop.
Proof.
  split; [apply in_range_fin|].
  intros (v & -> & H1 & H2). unfold is_in_range. simpl.
  apply Z.leb_le in H1, H2. rewrite H1, H2. reflexivity.
Qed.

(** C7: with the nth-weekday option enabled and a # in the
    alias-resolved day-of-week field, more than one # is invalid, and
    with exactly one # the field is valid exactly when the part to
    its left parses to a number within the weekday bound and the part
    to its right parses to a number from 1 to 5; the range and step
    grammar is not consulted. *)
Theorem nth_weekday_form (weekdays : string) (options : Options) :
  allowNthWeekdayOfMonth options = true ->
  let remapped := remapped_weekdays weekdays options in
  let max_weekday_num := if allowSevenAsSunday options then 7 else 6 in
  ((2 <= count_char "#" remapped)%nat ->
   has_valid_weekdays weekdays options = Ok false)
  /\ (forall weekday occurrence,
        remapped = weekday ++ "#" ++ occurrence ->
        contains "#" weekday = false ->
        contains "#" occurrence = false ->
        has_valid_weekdays weekdays options = Ok true
        <-> exists w n,
            safe_parse_int weekday = Ok (Fin w)
            /\ 0 <= w <= max_weekday_num
            /\ safe_parse_int occurrence = Ok (Fin n)
            /\ 1 <= n <= 5).
Proof.
  intros Hn remapped max_weekday_num. split.
  - intros Hcount. unfold has_valid_weekdays.
    destruct (is_question_mark weekdays) eqn:Hq.
    { unfold remapped in Hcount.
      rewrite (remapped_question_mark _ _ Hq) in Hcount.
      simpl in Hcount. lia. }
    rewrite !andb_false_r.
    destruct (re_search_slash_letter weekdays); [reflexivity|].
    fold (remapped_weekdays weekdays options). fold remapped.
    rewrite Hn. cbn [andb].
    pose proof (length_split "#" remapped) as Hl.
    destruct (split "#" remapped) as [|a [|b [|c l]]];
      simpl in Hl; try lia.
    reflexivity.
  - intros weekday occurrence Hr Hw Ho.
    rewrite !safe_parse_int_eq. unfold has_valid_weekdays.
    destruct (is_question_mark weekdays) eqn:Hq.
    { unfold remapped in Hr.
      rewrite (remapped_question_mark _ _ Hq) in Hr.
      destruct weekday as [|x [|y r]]; simpl in Hr; discriminate. }
    rewrite !andb_false_r.
    destruct (re_search_slash_letter weekdays) eqn:Hs.
    { split; [discriminate|].
      intros (w & n & Hpw & _ & Hpo & _). exfalso.
      apply slash_letter_contains_slash in Hs.
      assert (Hc : contains "/" remapped = true).
      { apply remapped_weekdays_keeps;
          [reflexivity|apply lower_char_keeps_slash|exact Hs]. }
      rewrite Hr, !contains_app in Hc.
      apply orb_true_iff in Hc as [Hc|Hc];
        [|apply orb_true_iff in Hc as [Hc|Hc]; [discriminate|]].
      - rewrite (parsed_nan "/" weekday Hc eq_refl) in Hpw by discriminate.
        discriminate.
      - rewrite (parsed_nan "/" occurrence Hc eq_refl) in Hpo
          by discriminate.
        discriminate. }
    fold (remapped_weekdays weekdays options). fold remapped.
    fold max_weekday_num. rewrite Hn, Hr.
    change (weekday ++ "#" ++ occurrence)
      with (weekday ++ String "#" occurrence).
    rewrite (split_two _ _ _ Hw Ho).
    cbn [List.length Nat.leb Nat.ltb andb firstn].
    rewrite !safe_parse_int_eq. cbn [bind and_then].
    split.
    + intros H.
      destruct (is_in_range (parsed occurrence) 1 5) eqn:H1;
        [|discriminate].
      injection H as H2.
      apply in_range_fin in H1 as (n & En & Hn5).
      apply in_range_fin in H2 as (w & Ew & Hw7).
      exists w, n. rewrite En, Ew. auto.
    + intros (w & n & Ew & Hw7 & En & Hn5).
      injection Ew as ->. injection En as ->.
      replace (is_in_range (Fin n) 1 5) with true
        by (symmetry; apply in_range_true_iff; eauto).
      replace (is_in_range (Fin w) 0 max_weekday_num) with true
        by (symmetry; apply in_range_true_iff; eauto).
      reflexivity.
Qed.

Lemma nth_weekday_form_witness :
  let options :=
    {| alias := true; seconds := false; allowBlankDay := false;
       allowSevenAsSunday := false; allowNthWeekdayOfMonth := true |} in
  has_valid_weekdays "WED#5" options = Ok true
  /\ has_valid_weekdays "mon#2#3" options = Ok false
  /\ has_valid_weekdays "mon-fri#2" options <> Ok true.
Proof.
  intros options.
  destruct (nth_weekday_form "WED#5" options eq_refl) as [_ H1].
  destruct (nth_weekday_form "mon#2#3" options eq_refl) as [H2 _].
  destruct (nth_weekday_form "mon-fri#2" options eq_refl) as [_ H3].
  split; [|split].
  - apply (H1 "3" "5"); [reflexivity|reflexivity|reflexivity|].
    exists 3, 5. vm_compute. repeat split; congruence.
  - apply H2. vm_compute. lia.
  - intros E. apply (H3 "1-5" "2") in E;
      [|reflexivity|reflexivity|reflexivity].
    destruct E as (w & n & E & _). vm_compute in E. discriminate.
Defined.

(** ** The day-of-week bound *)

Lemma lower_char_fixes_digit c : is_digit c = true -> lower_char c = c.
Proof. by_cases_on_char c. Qed.

Lemma digit_not_lower c : is_digit c = true -> is_lower_letter c = false.
Proof. by_cases_on_char c. Qed.

Lemma lower_digits s : forallb_str is_digit s = true -> lower s = s.
Proof.
  induction s as [|c r IH]; [reflexivity|]. simpl. intros H.
  apply andb_true_iff in H as [Hc Hr].
  rewrite (lower_char_fixes_digit _ Hc), (IH Hr). reflexivity.
Qed.

Lemma no_three_lower_digits s :
  forallb_str is_digit s = true -> re_search_three_lower s = false.
Proof.
  induction s as [|c r IH]; [reflexivity|].
  cbn [forallb_str re_search_three_lower]. intros H.
  apply andb_true_iff in H as [Hc Hr]. rewrite (IH Hr), orb_false_r.
  destruct r as [|b [|d r']]; try reflexivity.
  simpl. rewrite (digit_not_lower _ Hc). reflexivity.
Qed.

Lemma remapped_weekdays_digits s options :
  forallb_str is_digit s = true -> remapped_weekdays s options = s.
Proof.
  intros H. unfold remapped_weekdays. destruct (alias options); auto.
  rewrite (lower_digits _ H).
  apply re_sub_alias_no_match, no_three_lower_digits, H.
Qed.

Lemma no_slash_letter s :
  contains "/" s = false -> re_search_slash_letter s = false.
Proof.
  intros H. destruct (re_search_slash_letter s) eqn:E; [|reflexivity].
  apply slash_letter_contains_slash in E. congruence.
Qed.

Lemma has_valid_weekdays_bare_integer s options :
  bare_integer s = true ->
  has_valid_weekdays s options
  = Ok (is_in_range (round_double (digits_value s)) 0
          (if allowSevenAsSunday options then 7 else 6)).
Proof.
  intros H. pose proof (bare_integer_digits _ H) as Hd.
  unfold has_valid_weekdays.
  assert (Hq : is_question_mark s = false).
  { unfold is_question_mark.
    destruct (String.eqb_spec s "?") as [->|]; [discriminate|reflexivity]. }
  rewrite Hq, !andb_false_r.
  rewrite no_slash_letter by (apply digits_without; auto).
  fold (remapped_weekdays s options).
  rewrite (remapped_weekdays_digits _ _ Hd).
  rewrite (split_without "#" s) by (apply digits_without; auto).
  cbn [List.length Nat.leb]. rewrite andb_false_r.
  apply validate_for_range_bare_integer, H.
Qed.

(** C9: the numeric bound of the day-of-week field is 0..6, and 0..7
    with the seven-as-Sunday option: a bare integer is accepted exactly
    when its value is within that bound, so the scalar 7 is valid
    exactly when the option is enabled. *)
Theorem weekday_bound :
  (forall s options,
      bare_integer s = true ->
      has_valid_weekdays s options = Ok true
      <-> 0 <= digits_value s
              <= (if allowSevenAsSunday options then 7 else 6))
  /\ (forall options,
         has_valid_weekdays "7" options = Ok (allowSevenAsSunday options))
  /\ is_valid_cron "* * * * 7" None = Ok false
  /\ is_valid_cron "* * * * 7" (Some [("allowSevenAsSunday", true)])
     = Ok true.
Proof.
  split; [|split; [|split; reflexivity]].
  - intros s options H.
    rewrite (has_valid_weekdays_bare_integer _ _ H).
    rewrite is_in_range_round by (destruct (allowSevenAsSunday _); reflexivity).
    split.
    + intros E. injection E as E. apply andb_true_iff in E as [E1 E2].
      apply Z.leb_le in E1, E2. lia.
    + intros [E1 E2]. apply Z.leb_le in E1, E2. rewrite E1, E2. reflexivity.
  - intros options.
    rewrite (has_valid_weekdays_bare_integer "7" options eq_refl).
    destruct (allowSevenAsSunday options); reflexivity.
Qed.

Lemma weekday_bound_witness :
  has_valid_weekdays "6" default_options = Ok true
  /\ has_valid_weekdays "7" default_options = Ok false.
Proof.
  destruct weekday_bound as (H & H7 & _).
  split.
  - apply (H "6" default_options); [reflexivity|].
    vm_compute. split; congruence.
  - apply (H7 default_options).
Defined.

(** ** Blank days *)

Lemma ok_true_unique (m : result bool) c : m = Ok c -> m = Ok true -> c = true.
Proof. intros H1 H2. congruence. Qed.




(** * Further properties of the validator *)

(** ** The numeric parser *)




(** ** Comma lists *)

Lemma validate_conditions_cons condition rest start stop :
  validate_conditions (condition :: rest) start stop
  = (t <- validate_conditions [condition] start stop ;;
     if t then validate_conditions rest start stop else Ok false).
Proof.
  cbn [validate_conditions].
  destruct (endswith (strip condition) "/"); [reflexivity|].
  destruct (2 <? _)%nat; [reflexivity|].
  destruct (split "/" condition) as [|range_expr more]; [reflexivity|].
  destruct (is_valid_range_returns range_expr start stop) as [b ->].
  destruct (is_valid_step_returns
              (if (List.length (range_expr :: more) =? 2)%nat
               then Some (nth 1 (range_expr :: more) "") else None))
    as [b' ->].
  destruct b, b'; reflexivity.
Qed.

Lemma validate_conditions_cons_true condition rest start stop :
  validate_conditions (condition :: rest) start stop = Ok true
  <-> validate_conditions [condition] start stop = Ok true
      /\ validate_conditions rest start stop = Ok true.
Proof.
  rewrite validate_conditions_cons.
  destruct (validate_conditions_returns [condition] start stop) as [[] ->];
    cbn [bind]; split; try tauto; try discriminate.
Qed.

Lemma validate_conditions_forall conditions start stop :
  validate_conditions conditions start stop = Ok true
  <-> Forall (fun t => validate_conditions [t] start stop = Ok true)
        conditions.
Proof.
  induction conditions as [|c rest IH].
  - split; [constructor|reflexivity].
  - rewrite validate_conditions_cons_true, IH. split.
    + intros [H1 H2]. constructor; assumption.
    + intros H. inversion H; subst. auto.
Qed.

Lemma existsb_split (p : ascii -> bool) sep s :
  p sep = false ->
  existsb_str p s = existsb (existsb_str p) (split sep s).
Proof.
  intros Hp. induction s as [|c r IH]; [reflexivity|].
  cbn [existsb_str split]. destruct (Ascii.eqb_spec c sep) as [->|Hc].
  - rewrite Hp, IH. reflexivity.
  - rewrite IH. destruct (split sep r) as [|h t] eqn:E;
      [now apply split_nonempty in E|].
    cbn [existsb existsb_str]. rewrite orb_assoc. reflexivity.
Qed.

Lemma split_pieces_without sep s t :
  In t (split sep s) -> contains sep t = false.
Proof.
  revert t. induction s as [|c r IH]; intros t.
  - simpl. intros [<-|[]]. reflexivity.
  - cbn [split]. destruct (Ascii.eqb_spec c sep) as [->|Hc].
    + intros [<-|H]; [reflexivity|apply IH, H].
    + destruct (split sep r) as [|h l] eqn:E;
        [now apply split_nonempty in E|].
      intros [<-|H].
      * unfold contains. cbn [existsb_str].
        apply Ascii.eqb_neq in Hc. rewrite Ascii.eqb_sym, Hc.
        apply (IH h). now left.
      * apply IH. now right.
Qed.


Lemma validate_for_range_term term start stop :
  contains "," term = false ->
  validate_for_range term start stop = Ok true
  <-> re_search_bad_char term = false
      /\ validate_conditions [term] start stop = Ok true.
Proof.
  intros H. unfold validate_for_range. rewrite (split_without _ _ H).
  destruct (re_search_bad_char term); split; try tauto; try discriminate.
  intros [? _]. discriminate.
Qed.

Lemma validate_for_range_forall v start stop :
  validate_for_range v start stop = Ok true
  <-> Forall (fun t => validate_for_range t start stop = Ok true)
        (split "," v).
Proof.
  assert (Hterm : forall t, In t (split "," v) ->
            (validate_for_range t start stop = Ok true
             <-> re_search_bad_char t = false
                 /\ validate_conditions [t] start stop = Ok true)).
  { intros t Ht. apply validate_for_range_term.
    apply (split_pieces_without _ _ _ Ht). }
  unfold validate_for_range at 1. unfold re_search_bad_char at 1.
  rewrite (existsb_split _ "," v eq_refl).
  destruct (existsb _ (split "," v)) eqn:E.
  - rewrite Forall_forall. split; [discriminate|]. intros H.
    apply existsb_exists in E as (t & Ht & Hb).
    specialize (H t Ht). apply (Hterm t Ht) in H as [H _].
    unfold re_search_bad_char in H. congruence.
  - rewrite validate_conditions_forall, !Forall_forall. split.
    + intros H t Ht. apply Hterm; [exact Ht|]. split; [|auto].
      destruct (re_search_bad_char t) eqn:Eb; [|reflexivity].
      assert (existsb (existsb_str (fun c => negb (is_field_char c)))
                (split "," v) = true); [|congruence].
      apply existsb_exists. exists t. auto.
    + intros H t Ht. apply Hterm; auto.
Qed.







(** ** Steps do not interact with the range *)

Lemma bad_false_field_chars s :
  re_search_bad_char s = false -> forallb_str is_field_char s = true.
Proof.
  unfold re_search_bad_char. induction s as [|c r IH]; [reflexivity|].
  simpl. intros H. apply orb_false_iff in H as [Hc Hr].
  apply negb_false_iff in Hc. rewrite Hc, (IH Hr). reflexivity.
Qed.






(** ** Wider bounds accept more *)

Lemma is_in_range_mono x start stop start' stop' :
  start' <= start -> stop <= stop' ->
  is_in_range x start stop = true -> is_in_range x start' stop' = true.
Proof.
  intros H1 H2 H. apply in_range_fin in H as (v & -> & Hv).
  apply in_range_true_iff. exists v. split; [reflexivity|lia].
Qed.

Lemma is_valid_range_mono v start stop start' stop' :
  start' <= start -> stop <= stop' ->
  is_valid_range v start stop = Ok true ->
  is_valid_range v start' stop' = Ok true.
Proof.
  intros H1 H2. unfold is_valid_range.
  destruct (split "-" v) as [|s [|b [|? ?]]]; cbn [List.length Nat.eqb];
    try discriminate; rewrite !safe_parse_int_eq; cbn [bind or_else].
  - destruct (is_wildcard v); [reflexivity|]. intros H. injection H as H.
    rewrite (is_in_range_mono _ _ _ _ _ H1 H2 H). reflexivity.
  - intros H. injection H as H.
    apply andb_true_iff in H as [H Hb]. apply andb_true_iff in H as [Hle Hs].
    rewrite Hle, (is_in_range_mono _ _ _ _ _ H1 H2 Hs),
      (is_in_range_mono _ _ _ _ _ H1 H2 Hb).
    reflexivity.
Qed.

Lemma validate_conditions_mono conditions start stop start' stop' :
  start' <= start -> stop <= stop' ->
  validate_conditions conditions start stop = Ok true ->
  validate_conditions conditions start' stop' = Ok true.
Proof.
  intros H1 H2. induction conditions as [|c rest IH]; [reflexivity|].
  cbn [validate_conditions].
  destruct (endswith (strip c) "/"); [discriminate|].
  destruct (2 <? _)%nat; [discriminate|].
  destruct (split "/" c) as [|r more]; [discriminate|].
  destruct (is_valid_range_returns r start stop) as [[] Hr]; rewrite Hr.
  - rewrite (is_valid_range_mono _ _ _ _ _ H1 H2 Hr).
    destruct (is_valid_step_returns
                (if (List.length (r :: more) =? 2)%nat
                 then Some (nth 1 (r :: more) "") else None)) as [[] ->];
      cbn [and_then bind negb]; [exact IH|discriminate].
  - cbn [and_then bind negb]. discriminate.
Qed.

(** X5: widening the bounds keeps a field valid: what
    [validate_for_range] accepts for [start..stop] it accepts for every
    range that contains it; so a valid hours field is a valid minutes
    field and a valid month field is a valid day-of-month field. *)
Theorem validate_for_range_mono (v : string) (start stop start' stop' : Z) :
  start' <= start -> stop <= stop' ->
  validate_for_range v start stop = Ok true ->
  validate_for_range v start' stop' = Ok true.
Proof.
  intros H1 H2. unfold validate_for_range.
  destruct (re_search_bad_char v); [discriminate|].
  apply validate_conditions_mono; assumption.
Qed.

Lemma validate_for_range_mono_witness :
  has_valid_minutes "0-23/2" = Ok true
  /\ has_valid_days "1-12" false = Ok true.
Proof.
  split.
  - apply (validate_for_range_mono "0-23/2" 0 23 0 59);
      [lia|lia|reflexivity].
  - apply (validate_for_range_mono "1-12" 1 12 1 31);
      [lia|lia|reflexivity].
Defined.

(** ** Wildcards *)

Lemma join_split sep s : join (String sep "") (split sep s) = s.
Proof.
  induction s as [|c r IH]; [reflexivity|].
  cbn [split]. destruct (split sep r) as [|h t] eqn:E;
    [now apply split_nonempty in E|].
  destruct (Ascii.eqb_spec c sep) as [->|_].
  - change (join (String sep "") ("" :: h :: t))
      with ("" ++ String sep "" ++ join (String sep "") (h :: t)).
    rewrite IH. reflexivity.
  - destruct t as [|h' t'].
    + simpl in IH |- *. rewrite IH. reflexivity.
    + change (join (String sep "") (String c h :: h' :: t'))
        with (String c (join (String sep "") (h :: h' :: t'))).
      rewrite IH. reflexivity.
Qed.

Lemma split_one sep s x : split sep s = [x] -> s = x.
Proof.
  intros H. rewrite <- (join_split sep s), H. reflexivity.
Qed.

Lemma split_pair sep s x y : split sep s = [x; y] -> s = x ++ String sep y.
Proof.
  intros H. rewrite <- (join_split sep s), H. reflexivity.
Qed.

Lemma wildcard_range r start stop :
  is_valid_range r start stop = Ok true ->
  contains "*" r = true -> r = "*".
Proof.
  unfold is_valid_range. intros H Hc.
  destruct (split "-" r) as [|x [|y [|? ?]]] eqn:E;
    cbn [List.length Nat.eqb] in H; try discriminate.
  - destruct (is_wildcard r) eqn:Hw;
      [apply String.eqb_eq in Hw; exact Hw|].
    rewrite safe_parse_int_eq in H.
    rewrite (parsed_nan "*" r Hc eq_refl) in H by discriminate.
    discriminate.
  - rewrite !safe_parse_int_eq in H. cbn [bind] in H.
    apply split_pair in E. subst r. rewrite contains_app in Hc.
    apply orb_true_iff in Hc as [Hc|Hc].
    + rewrite (parsed_nan "*" x Hc eq_refl) in H by discriminate.
      discriminate.
    + unfold contains in Hc. simpl in Hc.
      rewrite (parsed_nan "*" y Hc eq_refl) in H by discriminate.
      rewrite float_le_nan_r in H. discriminate.
Qed.

(** X6: in a valid field a wildcard only occurs alone: every item that
    contains an asterisk is the asterisk itself or the asterisk followed by
    a slash and a positive bare integer. *)
Theorem wildcard_stands_alone (v : string) (start stop : Z) :
  validate_for_range v start stop = Ok true ->
  forall t,
    In t (split "," v) ->
    contains "*" t = true ->
    t = "*"
    \/ exists step,
       t = "*/" ++ step /\ bare_integer step = true /\ 0 < digits_value step.
Proof.
  intros Hv t Ht Hstar.
  apply validate_for_range_forall in Hv.
  rewrite Forall_forall in Hv. specialize (Hv t Ht).
  apply validate_for_range_term in Hv as [_ Hv];
    [|apply (split_pieces_without _ _ _ Ht)].
  cbn [validate_conditions] in Hv.
  destruct (endswith (strip t) "/"); [discriminate|].
  destruct (2 <? _)%nat eqn:Hlen; [discriminate|].
  destruct (split "/" t) as [|r [|s [|? ?]]] eqn:E;
    try discriminate; cbn [List.length Nat.eqb nth] in Hv.
  - apply split_one in E. subst r.
    destruct (is_valid_range_returns t start stop) as [[] Hr];
      rewrite Hr in Hv; [|discriminate].
    left. apply (wildcard_range _ _ _ Hr Hstar).
  - apply split_pair in E. subst t.
    destruct (is_valid_range_returns r start stop) as [[] Hr];
      rewrite Hr in Hv; [|discriminate].
    rewrite is_valid_step_eq in Hv. cbn [and_then bind] in Hv.
    destruct (bare_integer s && (0 <? digits_value s)) eqn:Hs;
      [|discriminate].
    apply andb_true_iff in Hs as [Hb Hp]. apply Z.ltb_lt in Hp.
    rewrite contains_app in Hstar. apply orb_true_iff in Hstar as [Hc|Hc].
    + right. exists s. rewrite (wildcard_range _ _ _ Hr Hc). auto.
    + unfold contains in Hc. simpl in Hc.
      pose proof (digits_without "*" s eq_refl (bare_integer_digits _ Hb)).
      unfold contains in *. congruence.
Qed.

Lemma wildcard_stands_alone_witness :
  "*/5" = "*"
  \/ exists step,
     "*/5" = "*/" ++ step /\ bare_integer step = true /\ 0 < digits_value step.
Proof.
  apply (wildcard_stands_alone "1,*/5" 0 59);
    [reflexivity|simpl; right; now left|reflexivity].
Defined.

(** ** Splitting an expression into fields *)

Lemma split_whitespace_cons c r :
  split_whitespace (String c r)
  = if is_space c then split_whitespace r
    else match r with
         | EmptyString => [String c EmptyString]
         | String c' _ =>
             if is_space c' then String c EmptyString :: split_whitespace r
             else match split_whitespace r with
                  | h :: t => String c h :: t
                  | [] => [String c EmptyString]
                  end
         end.
Proof. destruct r; reflexivity. Qed.

Lemma is_field_cons c f :
  is_space c = false -> (f = "" \/ is_field f = true) ->
  is_field (String c f) = true.
Proof.
  unfold is_field. cbn [is_empty existsb_str negb andb]. intros -> [->|H].
  - reflexivity.
  - apply andb_true_iff in H as [_ H]. exact H.
Qed.

Lemma split_whitespace_fields s :
  Forall (fun f => is_field f = true) (split_whitespace s).
Proof.
  induction s as [|c r IH]; [constructor|].
  rewrite split_whitespace_cons.
  destruct (is_space c) eqn:Hc; [exact IH|].
  destruct r as [|c' r'].
  - constructor; [|constructor]. apply is_field_cons; auto.
  - destruct (is_space c') eqn:Hc'.
    + constructor; [|exact IH]. apply is_field_cons; auto.
    + destruct (split_whitespace (String c' r')) as [|h t].
      * constructor; [|constructor]. apply is_field_cons; auto.
      * inversion IH; subst. constructor; [|assumption].
        apply is_field_cons; auto.
Qed.

Lemma split_whitespace_spaces ws :
  forallb_str is_space ws = true -> split_whitespace ws = [].
Proof.
  induction ws as [|c r IH]; [reflexivity|].
  cbn [forallb_str]. intros H. apply andb_true_iff in H as [Hc Hr].
  rewrite split_whitespace_cons, Hc. apply IH, Hr.
Qed.

Lemma split_whitespace_lpad ws s :
  forallb_str is_space ws = true ->
  split_whitespace (ws ++ s) = split_whitespace s.
Proof.
  induction ws as [|c r IH]; [reflexivity|].
  cbn [forallb_str]. intros H. apply andb_true_iff in H as [Hc Hr].
  change (String c r ++ s) with (String c (r ++ s)).
  rewrite split_whitespace_cons, Hc. apply IH, Hr.
Qed.

Lemma split_whitespace_rpad s ws :
  forallb_str is_space ws = true ->
  split_whitespace (s ++ ws) = split_whitespace s.
Proof.
  intros Hws. induction s as [|c r IH].
  - apply split_whitespace_spaces, Hws.
  - change (String c r ++ ws) with (String c (r ++ ws)).
    rewrite !split_whitespace_cons, IH.
    destruct (is_space c); [reflexivity|].
    destruct r as [|c' r']; [|reflexivity].
    cbn [append]. destruct ws as [|w ws']; [reflexivity|].
    cbn [forallb_str] in Hws. apply andb_true_iff in Hws as [Hw Hr].
    rewrite Hw. reflexivity.
Qed.

Lemma split_whitespace_lstrip s :
  split_whitespace (lstrip s) = split_whitespace s.
Proof.
  induction s as [|c r IH]; [reflexivity|].
  cbn [lstrip]. rewrite (split_whitespace_cons c r).
  destruct (is_space c) eqn:Hc; [exact IH|].
  rewrite split_whitespace_cons, Hc. reflexivity.
Qed.

Lemma rstrip_cons c r :
  rstrip (String c r)
  = if is_space c && is_empty (rstrip r) then "" else String c (rstrip r).
Proof. reflexivity. Qed.

Lemma split_whitespace_rstrip s :
  split_whitespace (rstrip s) = split_whitespace s.
Proof.
  induction s as [|c r IH]; [reflexivity|].
  rewrite rstrip_cons, (split_whitespace_cons c r).
  destruct (is_space c) eqn:Hc; cbn [andb].
  - destruct (rstrip r) as [|x y] eqn:E; cbn [is_empty].
    + rewrite <- IH. reflexivity.
    + rewrite split_whitespace_cons, Hc. exact IH.
  - destruct r as [|c' r'];
      [cbn [rstrip]; rewrite split_whitespace_cons, Hc; reflexivity|].
    remember (rstrip (String c' r')) as R eqn:HR.
    rewrite (split_whitespace_cons c R), Hc.
    rewrite rstrip_cons in HR.
    destruct (is_space c' && is_empty (rstrip r')) eqn:E; subst R.
    + apply andb_true_iff in E as [Hc' _]. rewrite Hc', <- IH. reflexivity.
    + rewrite IH. reflexivity.
Qed.

Lemma split_cron_eq cron : split_cron cron = split_whitespace cron.
Proof.
  unfold split_cron, strip.
  rewrite split_whitespace_rstrip. apply split_whitespace_lstrip.
Qed.

Lemma is_field_inv x f :
  is_field (String x f) = true ->
  is_space x = false /\ (f = "" \/ is_field f = true).
Proof.
  unfold is_field. cbn [is_empty existsb_str negb andb]. intros H.
  apply negb_true_iff, orb_false_iff in H as [Hx Hf]. split; [exact Hx|].
  destruct f as [|y g]; [now left|right]. cbn [is_empty negb andb].
  rewrite Hf. reflexivity.
Qed.

Lemma split_whitespace_field f :
  is_field f = true -> split_whitespace f = [f].
Proof.
  induction f as [|x g IH]; [discriminate|]. intros H.
  apply is_field_inv in H as [Hx [->|Hg]].
  - rewrite split_whitespace_cons, Hx. reflexivity.
  - rewrite split_whitespace_cons, Hx, (IH Hg).
    destruct g as [|y g']; [discriminate|].
    apply is_field_inv in Hg as [-> _]. reflexivity.
Qed.

Lemma split_whitespace_field_sep f c r :
  is_field f = true -> is_space c = true ->
  split_whitespace (f ++ String c r) = f :: split_whitespace r.
Proof.
  intros Hf Hc. induction f as [|x g IH]; [discriminate|].
  apply is_field_inv in Hf as [Hx [->|Hg]].
  - cbn [append]. rewrite split_whitespace_cons, Hx, Hc.
    rewrite split_whitespace_cons, Hc. reflexivity.
  - change (String x g ++ String c r) with (String x (g ++ String c r)).
    rewrite split_whitespace_cons, Hx, (IH Hg).
    destruct g as [|y g']; [discriminate|].
    apply is_field_inv in Hg as [Hy _]. cbn [append]. rewrite Hy.
    reflexivity.
Qed.

Lemma split_whitespace_join fields :
  Forall (fun f => is_field f = true) fields ->
  split_whitespace (join " " fields) = fields.
Proof.
  induction 1 as [|f rest Hf Hrest IH]; [reflexivity|].
  destruct rest as [|g rest'].
  - apply split_whitespace_field, Hf.
  - change (join " " (f :: g :: rest'))
      with (f ++ String " " (join " " (g :: rest'))).
    rewrite (split_whitespace_field_sep f " "%char _ Hf eq_refl), IH.
    reflexivity.
Qed.

Lemma is_valid_cron_fields cron cron' partial_options :
  split_cron cron = split_cron cron' ->
  is_valid_cron cron partial_options = is_valid_cron cron' partial_options.
Proof.
  intros H. unfold is_valid_cron. rewrite H. reflexivity.
Qed.

(** X7: the fields [split_cron] returns are non-empty and free of
    white space; an expression that is empty or all white space has no
    field and is rejected. *)
Theorem split_cron_fields :
  (forall cron, Forall (fun f => is_field f = true) (split_cron cron))
  /\ (forall cron partial_options,
         forallb_str is_space cron = true ->
         split_cron cron = []
         /\ is_valid_cron cron partial_options = Ok false).
Proof.
  split.
  - intros cron. rewrite split_cron_eq. apply split_whitespace_fields.
  - intros cron partial_options H.
    assert (E : split_cron cron = []).
    { rewrite split_cron_eq. apply split_whitespace_spaces, H. }
    split; [exact E|].
    apply wrong_field_count; rewrite E; simpl; [lia|right; lia].
Qed.

Lemma split_cron_fields_witness :
  split_cron "   " = [] /\ is_valid_cron "   " None = Ok false.
Proof.
  destruct split_cron_fields as [_ H]. apply (H "   " None). reflexivity.
Defined.

(** X8: splitting is a left inverse of joining with single spaces:
    for fields that are non-empty and free of white space,
    [split_cron (" ".join(fields))] is [fields]; and joining the fields
    of any expression gives an expression with the same fields. *)
Theorem split_cron_join :
  (forall fields,
      Forall (fun f => is_field f = true) fields ->
      split_cron (join " " fields) = fields)
  /\ (forall cron,
         split_cron (join " " (split_cron cron)) = split_cron cron).
Proof.
  assert (H : forall fields,
             Forall (fun f => is_field f = true) fields ->
             split_cron (join " " fields) = fields).
  { intros fields Hf. rewrite split_cron_eq.
    apply split_whitespace_join, Hf. }
  split; [exact H|].
  intros cron. apply H. rewrite split_cron_eq. apply split_whitespace_fields.
Qed.

Lemma split_cron_join_witness :
  split_cron (join " " ["0"; "0,12"; "1"; "*/2"; "*"])
  = ["0"; "0,12"; "1"; "*/2"; "*"].
Proof.
  destruct split_cron_join as [H _]. apply H. repeat constructor.
Defined.

(** X9: only the sequence of fields matters to [is_valid_cron]: white
    space before and after the expression is ignored, and so is the
    amount of white space between fields. *)
Theorem is_valid_cron_whitespace (cron : string)
  (partial_options : option (list (string * bool))) :
  (forall before after,
      forallb_str is_space before = true ->
      forallb_str is_space after = true ->
      is_valid_cron (before ++ cron ++ after) partial_options
      = is_valid_cron cron partial_options)
  /\ is_valid_cron (join " " (split_cron cron)) partial_options
     = is_valid_cron cron partial_options.
Proof.
  split.
  - intros before after Hb Ha. apply is_valid_cron_fields.
    rewrite !split_cron_eq, (split_whitespace_lpad _ _ Hb).
    apply split_whitespace_rpad, Ha.
  - apply is_valid_cron_fields.
    rewrite !split_cron_eq. apply split_whitespace_join.
    apply split_whitespace_fields.
Qed.

Lemma is_valid_cron_whitespace_witness :
  is_valid_cron (" " ++ "1  2 3 4 5" ++ "  ") None
  = is_valid_cron "1  2 3 4 5" None.
Proof.
  destruct (is_valid_cron_whitespace "1  2 3 4 5" None) as [H _].
  apply (H " " "  "); reflexivity.
Defined.

(** ** The verdict as a conjunction *)

(** X10: for an expression of five fields the verdict is the
    conjunction of the five field checks and the blank-day rule,
    whether or not the seconds option is enabled. *)
Theorem five_fields_conjunction (cron : string)
  (partial_options : option (list (string * bool)))
  (minutes hours days months weekdays : string) :
  split_cron cron = [minutes; hours; days; months; weekdays] ->
  let options := merge_options default_options partial_options in
  is_valid_cron cron partial_options = Ok true
  <-> has_valid_minutes minutes = Ok true
      /\ has_valid_hours hours = Ok true
      /\ has_valid_days days (allowBlankDay options) = Ok true
      /\ has_valid_months months (alias options) = Ok true
      /\ has_valid_weekdays weekdays options = Ok true
      /\ has_compatible_day_format days weekdays (allowBlankDay options)
         = true.
Proof.
  intros Hs options.
  destruct (is_valid_cron_five _ partial_options _ _ _ _ _ Hs)
    as (c1 & c2 & c3 & c4 & c5 & H1 & H2 & H3 & H4 & H5 & ->).
  fold options in H3, H4, H5 |- *. rewrite H1, H2, H3, H4, H5.
  split.
  - intros H. injection H as H.
    repeat (apply andb_true_iff in H as [H ?]). subst.
    repeat split; assumption.
  - intros (E1 & E2 & E3 & E4 & E5 & ->).
    injection E1 as ->. injection E2 as ->. injection E3 as ->.
    injection E4 as ->. injection E5 as ->. reflexivity.
Qed.

Lemma five_fields_conjunction_witness :
  is_valid_cron "0 7 * * 1-5" (Some [("seconds", true)]) = Ok true.
Proof.
  apply (five_fields_conjunction "0 7 * * 1-5" (Some [("seconds", true)])
           "0" "7" "*" "*" "1-5" eq_refl).
  repeat split; reflexivity.
Defined.

(** X11: with the seconds option enabled, a field followed by a space
    and a five-field expression is valid exactly when the field is a
    valid seconds field and the five-field expression is valid. *)
Theorem seconds_field_prepended (sec cron : string)
  (partial_options : option (list (string * bool))) :
  seconds (merge_options default_options partial_options) = true ->
  is_field sec = true ->
  List.length (split_cron cron) = 5%nat ->
  is_valid_cron (sec ++ " " ++ cron) partial_options = Ok true
  <-> has_valid_seconds sec = Ok true
      /\ is_valid_cron cron partial_options = Ok true.
Proof.
  intros Hsec Hf Hlen.
  assert (Hs : split_cron (sec ++ " " ++ cron) = sec :: split_cron cron).
  { rewrite !split_cron_eq.
    apply (split_whitespace_field_sep sec " "%char cron Hf eq_refl). }
  destruct (split_cron cron) as [|mi [|h [|d [|mo [|w [|? ?]]]]]] eqn:E;
    try discriminate.
  destruct (is_valid_cron_six _ partial_options _ _ _ _ _ _ Hs Hsec)
    as (c0 & c1 & c2 & c3 & c4 & c5 & H0 & H1 & H2 & H3 & H4 & H5 & ->).
  destruct (is_valid_cron_five _ partial_options _ _ _ _ _ E)
    as (d1 & d2 & d3 & d4 & d5 & G1 & G2 & G3 & G4 & G5 & ->).
  assert (c1 = d1) by congruence. assert (c2 = d2) by congruence.
  assert (c3 = d3) by congruence. assert (c4 = d4) by congruence.
  assert (c5 = d5) by congruence. subst. rewrite H0.
  rewrite <- !andb_assoc.
  destruct c0; cbn [andb]; split; try tauto; try discriminate.
Qed.

Lemma seconds_field_prepended_witness :
  is_valid_cron ("59" ++ " " ++ "* * * * *") (Some [("seconds", true)])
  = Ok true.
Proof.
  apply (seconds_field_prepended "59" "* * * * *"
           (Some [("seconds", true)]) eq_refl eq_refl eq_refl).
  split; reflexivity.
Defined.

(** ** Expressions made of numbers *)

Lemma in_range_round_iff n start stop :
  stop < 2 ^ 53 ->
  is_in_range (round_double n) start stop = true <-> start <= n <= stop.
Proof.
  intros H. rewrite (is_in_range_round _ _ _ H), andb_true_iff, !Z.leb_le.
  reflexivity.
Qed.

Lemma bare_integer_is_field s : bare_integer s = true -> is_field s = true.
Proof.
  intros H. unfold is_field. unfold bare_integer in H.
  apply andb_true_iff in H as [-> Hd]. cbn [andb].
  apply negb_true_iff, existsb_str_false, digits_no_space, Hd.
Qed.

Lemma bare_integer_not_question_mark s :
  bare_integer s = true -> is_question_mark s = false.
Proof.
  intros H. unfold is_question_mark.
  destruct (String.eqb_spec s "?") as [->|]; [discriminate|reflexivity].
Qed.

Lemma has_valid_days_bare_integer s allow_blank_day :
  bare_integer s = true ->
  has_valid_days s allow_blank_day
  = Ok (is_in_range (round_double (digits_value s)) 1 31).
Proof.
  intros H. unfold has_valid_days.
  rewrite (bare_integer_not_question_mark _ H), andb_false_r.
  cbn [or_else bind]. apply validate_for_range_bare_integer, H.
Qed.

Lemma has_valid_months_bare_integer s use_alias :
  bare_integer s = true ->
  has_valid_months s use_alias
  = Ok (is_in_range (round_double (digits_value s)) 1 12).
Proof.
  intros H. pose proof (bare_integer_digits _ H) as Hd.
  unfold has_valid_months.
  rewrite no_slash_letter by (apply digits_without; auto).
  rewrite (lower_digits _ Hd).
  rewrite re_sub_alias_no_match by (apply no_three_lower_digits, Hd).
  destruct use_alias; apply validate_for_range_bare_integer, H.
Qed.

(** X12: an expression of five bare integers separated by single
    spaces is valid, under any configuration, exactly when the minute
    is at most 59, the hour at most 23, the day of month from 1 to 31,
    the month from 1 to 12 and the day of week at most 6, or at most 7
    with the seven-as-Sunday option. *)
Theorem five_integers_valid (minutes hours days months weekdays : string)
  (partial_options : option (list (string * bool))) :
  bare_integer minutes = true ->
  bare_integer hours = true ->
  bare_integer days = true ->
  bare_integer months = true ->
  bare_integer weekdays = true ->
  let options := merge_options default_options partial_options in
  is_valid_cron (join " " [minutes; hours; days; months; weekdays])
    partial_options = Ok true
  <-> 0 <= digits_value minutes <= 59
      /\ 0 <= digits_value hours <= 23
      /\ 1 <= digits_value days <= 31
      /\ 1 <= digits_value months <= 12
      /\ 0 <= digits_value weekdays
           <= (if allowSevenAsSunday options then 7 else 6).
Proof.
  intros Hmi Hh Hd Hmo Hw options.
  assert (Hs : split_cron (join " " [minutes; hours; days; months; weekdays])
               = [minutes; hours; days; months; weekdays]).
  { rewrite split_cron_eq. apply split_whitespace_join.
    repeat constructor; apply bare_integer_is_field; assumption. }
  destruct (is_valid_cron_five _ partial_options _ _ _ _ _ Hs)
    as (c1 & c2 & c3 & c4 & c5 & H1 & H2 & H3 & H4 & H5 & ->).
  fold options in H3, H4, H5 |- *.
  unfold has_valid_minutes in H1. unfold has_valid_hours in H2.
  rewrite (validate_for_range_bare_integer _ _ _ Hmi) in H1.
  rewrite (validate_for_range_bare_integer _ _ _ Hh) in H2.
  rewrite (has_valid_days_bare_integer _ _ Hd) in H3.
  rewrite (has_valid_months_bare_integer _ _ Hmo) in H4.
  rewrite (has_valid_weekdays_bare_integer _ _ Hw) in H5.
  injection H1 as <-. injection H2 as <-. injection H3 as <-.
  injection H4 as <-. injection H5 as <-.
  unfold has_compatible_day_format.
  rewrite (bare_integer_not_question_mark _ Hd), andb_false_r.
  cbn [andb negb]. rewrite andb_true_r.
  assert (H7 : (if allowSevenAsSunday options then 7 else 6) < 2 ^ 53)
    by (destruct (allowSevenAsSunday options); reflexivity).
  rewrite <- (in_range_round_iff (digits_value minutes) 0 59 eq_refl).
  rewrite <- (in_range_round_iff (digits_value hours) 0 23 eq_refl).
  rewrite <- (in_range_round_iff (digits_value days) 1 31 eq_refl).
  rewrite <- (in_range_round_iff (digits_value months) 1 12 eq_refl).
  rewrite <- (in_range_round_iff (digits_value weekdays) 0 _ H7).
  split.
  - intros H. injection H as H.
    do 4 (apply andb_true_iff in H as [H ?]).
    repeat (split; [assumption|]). assumption.
  - intros (E1 & E2 & E3 & E4 & E5). f_equal.
    repeat (apply andb_true_iff; split; [|assumption]). assumption.
Qed.

Lemma five_integers_valid_witness :
  is_valid_cron (join " " ["59"; "23"; "31"; "12"; "6"]) None = Ok true.
Proof.
  apply (five_integers_valid "59" "23" "31" "12" "6" None);
    try reflexivity.
  vm_compute. repeat split; congruence.
Defined.

(** ** The alphabet of accepted expressions *)

Lemma forallb_str_forall (p : ascii -> bool) s :
  forallb_str p s = true
  <-> forall x, contains x s = true -> p x = true.
Proof.
  unfold contains. induction s as [|c r IH]; cbn [forallb_str existsb_str].
  - split; [discriminate|reflexivity].
  - rewrite andb_true_iff, IH. split.
    + intros [Hc Hr] x Hx. apply orb_true_iff in Hx as [Hx|Hx];
        [apply Ascii.eqb_eq in Hx; subst; exact Hc|apply Hr, Hx].
    + intros H. split.
      * apply H. rewrite Ascii.eqb_refl. reflexivity.
      * intros x Hx. apply H. rewrite Hx. apply orb_true_r.
Qed.

Lemma contains_lower_char x s :
  contains x s = true -> contains (lower_char x) (lower s) = true.
Proof.
  unfold contains. induction s as [|c r IH]; [discriminate|].
  cbn [lower existsb_str]. intros H. apply orb_true_iff in H as [H|H].
  - apply Ascii.eqb_eq in H. subst c. rewrite Ascii.eqb_refl. reflexivity.
  - rewrite (IH H). apply orb_true_r.
Qed.

Lemma alias_source_chars table s (ok src : ascii -> bool) :
  (forall x, src x = false ->
             ok (lower_char x) = false
             /\ is_lower_letter (lower_char x) = false) ->
  forallb_str ok (re_sub_alias table (lower s)) = true ->
  forallb_str src s = true.
Proof.
  intros Hsrc Hok. apply forallb_str_forall. intros x Hx.
  destruct (src x) eqn:E; [reflexivity|].
  destruct (Hsrc x E) as [Hno Hnl].
  apply contains_lower_char in Hx.
  apply (re_sub_alias_keeps table _ Hnl _ _ (le_n _)) in Hx.
  rewrite forallb_str_forall in Hok. rewrite (Hok _ Hx) in Hno.
  discriminate.
Qed.

Lemma field_or_letter_source x :
  is_field_char x || is_letter x = false ->
  is_field_char (lower_char x) = false
  /\ is_lower_letter (lower_char x) = false.
Proof.
  destruct x as [[] [] [] [] [] [] [] []]; vm_compute;
    (congruence || (intros _; split; reflexivity)).
Qed.

Lemma number_source x :
  is_space x || is_field_char x || is_letter x || Ascii.eqb x "#" = false ->
  is_number_char (lower_char x) = false
  /\ is_lower_letter (lower_char x) = false.
Proof.
  destruct x as [[] [] [] [] [] [] [] []]; vm_compute;
    (congruence || (intros _; split; reflexivity)).
Qed.

Lemma number_char_allowed x :
  is_number_char x = true ->
  is_space x || is_field_char x || Ascii.eqb x "#" = true.
Proof. by_cases_on_char x. Qed.

Lemma parsed_number_chars v start stop :
  is_in_range (parsed v) start stop = true ->
  forallb_str is_number_char v = true.
Proof.
  intros H. apply in_range_fin in H as (n & Hn & _).
  unfold parsed in Hn. destruct (re_match_digits v) eqn:Hm; [|discriminate].
  destruct (re_match_digits_shape _ Hm) as (d & Hv & Hb).
  apply bare_integer_digits in Hb.
  assert (Hd : forallb_str is_number_char d = true).
  { revert Hb. apply forallb_str_impl. intros c Hc.
    unfold is_number_char. rewrite Hc. reflexivity. }
  destruct Hv as [->| ->]; [exact Hd|].
  rewrite forallb_str_app, Hd. reflexivity.
Qed.

Lemma validate_chars v start stop :
  validate_for_range v start stop = Ok true ->
  forallb_str is_field_char v = true.
Proof.
  unfold validate_for_range.
  destruct (re_search_bad_char v) eqn:E; [discriminate|].
  intros _. apply bad_false_field_chars, E.
Qed.

Lemma field_char_allowed o c : is_field_char c = true -> allowed_char o c = true.
Proof.
  intros H. unfold allowed_char. rewrite H, orb_true_r. reflexivity.
Qed.

Lemma days_chars days o :
  has_valid_days days (allowBlankDay o) = Ok true ->
  forallb_str (allowed_char o) days = true.
Proof.
  unfold has_valid_days.
  destruct (allowBlankDay o) eqn:Hb; cbn [andb or_else bind].
  - destruct (is_question_mark days) eqn:Hq.
    + apply String.eqb_eq in Hq. subst days. intros _.
      cbn [forallb_str]. unfold allowed_char. rewrite Hb.
      rewrite andb_true_r. cbn [andb]. rewrite Ascii.eqb_refl.
      rewrite !orb_true_r. reflexivity.
    + intros H. apply validate_chars in H. revert H.
      apply forallb_str_impl, field_char_allowed.
  - intros H. apply validate_chars in H. revert H.
    apply forallb_str_impl, field_char_allowed.
Qed.

Lemma months_chars months o :
  has_valid_months months (alias o) = Ok true ->
  forallb_str (allowed_char o) months = true.
Proof.
  unfold has_valid_months.
  destruct (re_search_slash_letter months); [discriminate|].
  destruct (alias o) eqn:Ha.
  - intros H. apply validate_chars in H.
    apply (alias_source_chars _ _ _
             (fun x => is_field_char x || is_letter x)
             field_or_letter_source) in H.
    revert H. apply forallb_str_impl. intros c Hc.
    unfold allowed_char. rewrite Ha. cbn [andb].
    apply orb_true_iff in Hc as [-> | ->]; rewrite ?orb_true_r; reflexivity.
  - intros H. apply validate_chars in H. revert H.
    apply forallb_str_impl, field_char_allowed.
Qed.

Lemma weekdays_chars weekdays o :
  has_valid_weekdays weekdays o = Ok true ->
  forallb_str (allowed_char o) weekdays = true.
Proof.
  unfold has_valid_weekdays.
  destruct (allowBlankDay o && is_question_mark weekdays) eqn:E1.
  { apply andb_true_iff in E1 as [Hb Hq]. apply String.eqb_eq in Hq.
    subst weekdays. intros _. cbn [forallb_str]. unfold allowed_char.
    rewrite Hb, andb_true_r. cbn [andb]. rewrite Ascii.eqb_refl.
    rewrite !orb_true_r. reflexivity. }
  destruct (negb (allowBlankDay o) && is_question_mark weekdays);
    [discriminate|].
  destruct (re_search_slash_letter weekdays); [discriminate|].
  fold (remapped_weekdays weekdays o).
  destruct (allowNthWeekdayOfMonth o && _) eqn:E2.
  - apply andb_true_iff in E2 as [Hn _].
    destruct (split "#" (remapped_weekdays weekdays o))
      as [|wd [|occ [|? ?]]] eqn:Es;
      cbn [List.length Nat.ltb Nat.leb firstn]; try discriminate.
    rewrite !safe_parse_int_eq. cbn [and_then bind].
    destruct (is_in_range (parsed occ) 1 5) eqn:Ho; [|discriminate].
    intros H. injection H as Hw.
    apply parsed_number_chars in Ho, Hw.
    apply split_pair in Es.
    assert (Hr : forallb_str is_number_char (remapped_weekdays weekdays o)
                 = true).
    { rewrite Es, forallb_str_app, Hw. cbn [forallb_str andb].
      exact Ho. }
    unfold remapped_weekdays in Hr. destruct (alias o) eqn:Ha.
    + apply (alias_source_chars _ _ _
               (fun x => is_space x || is_field_char x || is_letter x
                         || Ascii.eqb x "#") number_source) in Hr.
      revert Hr. apply forallb_str_impl. intros c Hc.
      unfold allowed_char. rewrite Ha, Hn. cbn [andb].
      destruct (is_space c), (is_field_char c), (is_letter c),
        (Ascii.eqb c "#"); try discriminate; cbn [orb];
        rewrite ?orb_true_r; reflexivity.
    + revert Hr. apply forallb_str_impl. intros c Hc.
      apply number_char_allowed in Hc.
      unfold allowed_char. rewrite Hn. cbn [andb].
      destruct (is_space c), (is_field_char c), (Ascii.eqb c "#");
        try discriminate; cbn [orb]; rewrite ?orb_true_r; reflexivity.
  - intros H. apply validate_chars in H.
    unfold remapped_weekdays in H. destruct (alias o) eqn:Ha.
    + apply (alias_source_chars _ _ _
               (fun x => is_field_char x || is_letter x)
               field_or_letter_source) in H.
      revert H. apply forallb_str_impl. intros c Hc.
      unfold allowed_char. rewrite Ha. cbn [andb].
      apply orb_true_iff in Hc as [-> | ->]; rewrite ?orb_true_r;
        reflexivity.
    + revert H. apply forallb_str_impl, field_char_allowed.
Qed.

Lemma fields_chars (p : ascii -> bool) s :
  (forall c, is_space c = true -> p c = true) ->
  Forall (fun f => forallb_str p f = true) (split_whitespace s) ->
  forallb_str p s = true.
Proof.
  intros Hsp. induction s as [|c r IH]; [reflexivity|].
  rewrite split_whitespace_cons. cbn [forallb_str].
  destruct (is_space c) eqn:Hc.
  - intros H. rewrite (Hsp _ Hc), (IH H). reflexivity.
  - destruct r as [|c' r'].
    + intros H. inversion H as [|? ? Hf _]; subst.
      cbn [forallb_str] in Hf. rewrite andb_true_r in Hf.
      rewrite Hf. reflexivity.
    + destruct (is_space c').
      * intros H. inversion H as [|? ? Hf Hr]; subst.
        cbn [forallb_str] in Hf. rewrite andb_true_r in Hf.
        rewrite Hf, (IH Hr). reflexivity.
      * destruct (split_whitespace (String c' r')) as [|h t].
        -- intros H. inversion H as [|? ? Hf _]; subst.
           cbn [forallb_str] in Hf. rewrite andb_true_r in Hf.
           rewrite Hf, IH; [reflexivity|constructor].
        -- intros H. inversion H as [|? ? Hf Hr]; subst.
           cbn [forallb_str] in Hf. apply andb_true_iff in Hf as [Hf Hh].
           rewrite Hf, IH; [reflexivity|constructor; assumption].
Qed.

(** X13: an accepted expression is made of white space, digits, and
    the characters , / * - only, plus letters when the alias option is
    enabled, the question mark when blank days are allowed and the hash
    when the nth-weekday option is enabled. *)
Theorem accepted_alphabet (cron : string)
  (partial_options : option (list (string * bool))) :
  is_valid_cron cron partial_options = Ok true ->
  forallb_str (allowed_char (merge_options default_options partial_options))
    cron = true.
Proof.
  intros H. set (o := merge_options default_options partial_options).
  apply fields_chars.
  { intros c Hc. unfold allowed_char. rewrite Hc. reflexivity. }
  rewrite <- split_cron_eq.
  destruct (split_cron cron)
    as [|f1 [|f2 [|f3 [|f4 [|f5 [|f6 [|f7 l]]]]]]] eqn:Es;
    try (rewrite wrong_field_count in H;
         [discriminate|rewrite Es; simpl; lia
         |rewrite Es; right; simpl; lia]).
  - destruct (is_valid_cron_five _ partial_options _ _ _ _ _ Es)
      as (c1 & c2 & c3 & c4 & c5 & H1 & H2 & H3 & H4 & H5 & E).
    fold o in H3, H4, H5, E. rewrite E in H. injection H as H.
    do 5 (apply andb_true_iff in H as [H ?]). subst.
    repeat constructor.
    + apply validate_chars in H1. revert H1.
      apply forallb_str_impl, field_char_allowed.
    + apply validate_chars in H2. revert H2.
      apply forallb_str_impl, field_char_allowed.
    + apply days_chars, H3.
    + apply months_chars, H4.
    + apply weekdays_chars, H5.
  - destruct (seconds o) eqn:Hsec.
    2:{ rewrite wrong_field_count in H;
          [discriminate|rewrite Es; simpl; lia|left; exact Hsec]. }
    destruct (is_valid_cron_six _ partial_options _ _ _ _ _ _ Es Hsec)
      as (c0 & c1 & c2 & c3 & c4 & c5 & H0 & H1 & H2 & H3 & H4 & H5 & E).
    fold o in H3, H4, H5, E. rewrite E in H. injection H as H.
    do 6 (apply andb_true_iff in H as [H ?]). subst.
    repeat constructor.
    + apply validate_chars in H0. revert H0.
      apply forallb_str_impl, field_char_allowed.
    + apply validate_chars in H1. revert H1.
      apply forallb_str_impl, field_char_allowed.
    + apply validate_chars in H2. revert H2.
      apply forallb_str_impl, field_char_allowed.
    + apply days_chars, H3.
    + apply months_chars, H4.
    + apply weekdays_chars, H5.
Qed.

Lemma accepted_alphabet_witness :
  forallb_str (allowed_char default_options) "0 0,12 1 */2 *" = true.
Proof.
  apply (accepted_alphabet "0 0,12 1 */2 *" None). reflexivity.
Defined.

(** ** Fields without letters *)

Lemma lower_plain s : forallb_str is_plain s = true -> lower s = s.
Proof.
  induction s as [|c r IH]; [reflexivity|]. cbn [forallb_str lower].
  intros H. apply andb_true_iff in H as [Hc Hr].
  unfold is_plain in Hc. apply andb_true_iff in Hc as [_ Hc].
  apply Ascii.eqb_eq in Hc. rewrite Hc, (IH Hr). reflexivity.
Qed.

Lemma no_three_lower_plain s :
  forallb_str is_plain s = true -> re_search_three_lower s = false.
Proof.
  induction s as [|c r IH]; [reflexivity|].
  cbn [forallb_str re_search_three_lower]. intros H.
  apply andb_true_iff in H as [Hc Hr]. rewrite (IH Hr), orb_false_r.
  unfold is_plain in Hc. apply andb_true_iff in Hc as [Hc _].
  apply negb_true_iff in Hc.
  destruct r as [|b [|d r']]; try reflexivity.
  simpl. rewrite Hc. reflexivity.
Qed.

Lemma re_sub_alias_plain table s :
  forallb_str is_plain s = true -> re_sub_alias table (lower s) = s.
Proof.
  intros H. rewrite (lower_plain _ H).
  apply re_sub_alias_no_match, no_three_lower_plain, H.
Qed.

(** X14: alias resolution leaves a field without letters as it is, so
    for such a field the alias option has no effect on the month and
    day-of-week checks. *)
Theorem alias_without_letters (s : string) :
  forallb_str is_plain s = true ->
  (forall table, re_sub_alias table (lower s) = s)
  /\ has_valid_months s true = has_valid_months s false
  /\ (forall blank seven nth,
         has_valid_weekdays s
           {| alias := true; seconds := false; allowBlankDay := blank;
              allowSevenAsSunday := seven; allowNthWeekdayOfMonth := nth |}
         = has_valid_weekdays s
             {| alias := false; seconds := false; allowBlankDay := blank;
                allowSevenAsSunday := seven;
                allowNthWeekdayOfMonth := nth |}).
Proof.
  intros H. split; [intros table; apply re_sub_alias_plain, H|]. split.
  - unfold has_valid_months. rewrite (re_sub_alias_plain _ _ H).
    reflexivity.
  - intros blank seven nth. unfold has_valid_weekdays. cbn [alias].
    rewrite (re_sub_alias_plain _ _ H). reflexivity.
Qed.

Lemma alias_without_letters_witness :
  has_valid_months "1-6,*/2" true = has_valid_months "1-6,*/2" false.
Proof.
  apply (alias_without_letters "1-6,*/2"). reflexivity.
Defined.

(** ** Enabling options *)

Lemma allowed_plain c :
  is_space c || is_field_char c || Ascii.eqb c "?" || Ascii.eqb c "#" = true ->
  is_plain c = true.
Proof. by_cases_on_char c. Qed.

Lemma allowed_without_alias_plain o s :
  alias o = false ->
  forallb_str (allowed_char o) s = true -> forallb_str is_plain s = true.
Proof.
  intros Ha. apply forallb_str_impl. intros c Hc. apply allowed_plain.
  unfold allowed_char in Hc. rewrite Ha in Hc. cbn [andb] in Hc.
  rewrite orb_false_r in Hc.
  destruct (is_space c), (is_field_char c); try reflexivity.
  cbn [orb] in Hc |- *.
  destruct (Ascii.eqb c "?"), (Ascii.eqb c "#"); try reflexivity.
  rewrite !andb_false_r in Hc. discriminate.
Qed.

Lemma has_valid_days_mono days blank blank' :
  (blank = true -> blank' = true) ->
  has_valid_days days blank = Ok true -> has_valid_days days blank' = Ok true.
Proof.
  intros Hb. unfold has_valid_days.
  destruct blank; [rewrite (Hb eq_refl); auto|].
  cbn [andb or_else bind]. intros ->.
  destruct (blank' && is_question_mark days); reflexivity.
Qed.

Lemma has_valid_months_mono months al al' :
  (al = true -> al' = true) ->
  has_valid_months months al = Ok true ->
  has_valid_months months al' = Ok true.
Proof.
  intros Ha. destruct al; [rewrite (Ha eq_refl); auto|].
  destruct al'; [|auto]. unfold has_valid_months.
  destruct (re_search_slash_letter months); [discriminate|].
  intros H. rewrite re_sub_alias_plain; [exact H|].
  apply validate_chars in H. revert H. apply forallb_str_impl.
  intros c Hc. apply allowed_plain. rewrite Hc, orb_true_r. reflexivity.
Qed.

Lemma has_valid_weekdays_mono weekdays o o' :
  options_le o o' ->
  has_valid_weekdays weekdays o = Ok true ->
  has_valid_weekdays weekdays o' = Ok true.
Proof.
  intros (Ha & _ & Hb & H7 & Hn) H.
  assert (Hrem : remapped_weekdays weekdays o'
                 = remapped_weekdays weekdays o).
  { unfold remapped_weekdays. destruct (alias o) eqn:Eo;
      [rewrite (Ha eq_refl); reflexivity|].
    destruct (alias o'); [|reflexivity].
    apply re_sub_alias_plain, (allowed_without_alias_plain o _ Eo).
    apply weekdays_chars, H. }
  assert (Hmax : (if allowSevenAsSunday o then 7 else 6)
                 <= (if allowSevenAsSunday o' then 7 else 6)).
  { destruct (allowSevenAsSunday o); [rewrite (H7 eq_refl); lia|].
    destruct (allowSevenAsSunday o'); lia. }
  unfold has_valid_weekdays in H |- *.
  fold (remapped_weekdays weekdays o) in H.
  fold (remapped_weekdays weekdays o'). rewrite Hrem.
  destruct (is_question_mark weekdays).
  { destruct (allowBlankDay o); [rewrite (Hb eq_refl); reflexivity|].
    discriminate. }
  rewrite !andb_false_r in H |- *.
  destruct (re_search_slash_letter weekdays); [discriminate|].
  destruct (allowNthWeekdayOfMonth o && _) eqn:E.
  - apply andb_true_iff in E as [En El]. rewrite (Hn En), El. cbn [andb].
    destruct (2 <? _)%nat; [discriminate|].
    destruct (firstn 2 _) as [|wd [|occ [|? ?]]]; try discriminate.
    rewrite !safe_parse_int_eq in H |- *. cbn [and_then bind] in H |- *.
    destruct (is_in_range (parsed occ) 1 5); [|discriminate].
    injection H as H.
    rewrite (is_in_range_mono _ _ _ 0 _ (Z.le_refl 0) Hmax H). reflexivity.
  - pose proof (validate_chars _ _ _ H) as Hf.
    rewrite (split_without "#" (remapped_weekdays weekdays o)).
    + cbn [List.length Nat.leb]. rewrite andb_false_r.
      unfold validate_for_range in H |- *.
      destruct (re_search_bad_char _); [discriminate|].
      apply (validate_conditions_mono _ _ _ _ _ (Z.le_refl 0) Hmax H).
    + apply existsb_str_false. revert Hf. apply forallb_str_impl.
      intros c Hc. destruct (Ascii.eqb_spec "#"%char c) as [<-|];
        [discriminate|reflexivity].
Qed.

Lemma days_question_mark_needs_blank blank :
  has_valid_days "?" blank = Ok true -> blank = true.
Proof. destruct blank; [reflexivity|discriminate]. Qed.

Lemma compatible_mono days weekdays blank blank' :
  has_valid_days days blank = Ok true ->
  has_compatible_day_format days weekdays blank = true ->
  has_compatible_day_format days weekdays blank' = true.
Proof.
  unfold has_compatible_day_format. intros Hd Hc.
  destruct blank'; [|reflexivity]. cbn [andb].
  destruct (is_question_mark days) eqn:Hq; [|reflexivity].
  apply String.eqb_eq in Hq. subst days.
  rewrite (days_question_mark_needs_blank _ Hd) in Hc. exact Hc.
Qed.

(** X15: enabling options never turns an accepted expression into a
    rejected one: if a configuration enables at least the options of
    another, every expression valid under the smaller configuration is
    valid under the larger one. *)
Theorem options_monotone (cron : string)
  (partial_options partial_options' : option (list (string * bool))) :
  options_le (merge_options default_options partial_options)
    (merge_options default_options partial_options') ->
  is_valid_cron cron partial_options = Ok true ->
  is_valid_cron cron partial_options' = Ok true.
Proof.
  set (o := merge_options default_options partial_options).
  set (o' := merge_options default_options partial_options').
  intros Hle H. pose proof Hle as (Ha & Hs & Hb & H7 & Hn).
  destruct (split_cron cron)
    as [|f1 [|f2 [|f3 [|f4 [|f5 [|f6 [|f7 l]]]]]]] eqn:Es;
    try (rewrite wrong_field_count in H;
         [discriminate|rewrite Es; simpl; lia
         |rewrite Es; right; simpl; lia]).
  - destruct (is_valid_cron_five _ partial_options _ _ _ _ _ Es)
      as (c1 & c2 & c3 & c4 & c5 & H1 & H2 & H3 & H4 & H5 & E).
    destruct (is_valid_cron_five _ partial_options' _ _ _ _ _ Es)
      as (d1 & d2 & d3 & d4 & d5 & G1 & G2 & G3 & G4 & G5 & ->).
    fold o in H3, H4, H5, E. fold o' in G3, G4, G5 |- *.
    rewrite E in H. injection H as H.
    do 5 (apply andb_true_iff in H as [H ?]). subst.
    rewrite (ok_true_unique _ _ G1 H1), (ok_true_unique _ _ G2 H2).
    rewrite (ok_true_unique _ _ G3 (has_valid_days_mono _ _ _ Hb H3)).
    rewrite (ok_true_unique _ _ G4 (has_valid_months_mono _ _ _ Ha H4)).
    rewrite (ok_true_unique _ _ G5 (has_valid_weekdays_mono _ _ _ Hle H5)).
    rewrite (compatible_mono f3 f5 (allowBlankDay o) _ H3) by assumption.
    reflexivity.
  - destruct (seconds o) eqn:Hsec.
    2:{ rewrite wrong_field_count in H;
          [discriminate|rewrite Es; simpl; lia|left; exact Hsec]. }
    destruct (is_valid_cron_six _ partial_options _ _ _ _ _ _ Es Hsec)
      as (c0 & c1 & c2 & c3 & c4 & c5 & H0 & H1 & H2 & H3 & H4 & H5 & E).
    destruct (is_valid_cron_six _ partial_options' _ _ _ _ _ _ Es
                (Hs eq_refl))
      as (d0 & d1 & d2 & d3 & d4 & d5 & G0 & G1 & G2 & G3 & G4 & G5 & ->).
    fold o in H3, H4, H5, E. fold o' in G3, G4, G5 |- *.
    rewrite E in H. injection H as H.
    do 6 (apply andb_true_iff in H as [H ?]). subst.
    rewrite (ok_true_unique _ _ G0 H0).
    rewrite (ok_true_unique _ _ G1 H1), (ok_true_unique _ _ G2 H2).
    rewrite (ok_true_unique _ _ G3 (has_valid_days_mono _ _ _ Hb H3)).
    rewrite (ok_true_unique _ _ G4 (has_valid_months_mono _ _ _ Ha H4)).
    rewrite (ok_true_unique _ _ G5 (has_valid_weekdays_mono _ _ _ Hle H5)).
    rewrite (compatible_mono f4 f6 (allowBlankDay o) _ H3) by assumption.
    reflexivity.
Qed.

Lemma options_monotone_witness :
  is_valid_cron "0 12 * 1-6 1-5"
    (Some [("alias", true); ("seconds", true); ("allowBlankDay", true);
           ("allowSevenAsSunday", true); ("allowNthWeekdayOfMonth", true)])
  = Ok true.
Proof.
  apply (options_monotone "0 12 * 1-6 1-5" None).
  - unfold options_le. vm_compute. repeat split; congruence.
  - reflexivity.
Defined.

(** ** Letter case *)

Lemma lower_char_idem c : lower_char (lower_char c) = lower_char c.
Proof. destruct c as [[] [] [] [] [] [] [] []]; reflexivity. Qed.

Lemma lower_idem s : lower (lower s) = lower s.
Proof.
  induction s as [|c r IH]; [reflexivity|].
  cbn [lower]. rewrite lower_char_idem, IH. reflexivity.
Qed.

Lemma lower_char_slash c : Ascii.eqb (lower_char c) "/" = Ascii.eqb c "/".
Proof. destruct c as [[] [] [] [] [] [] [] []]; reflexivity. Qed.

Lemma lower_char_letter c : is_letter (lower_char c) = is_letter c.
Proof. destruct c as [[] [] [] [] [] [] [] []]; reflexivity. Qed.

Lemma lower_char_question_mark c :
  Ascii.eqb (lower_char c) "?" = Ascii.eqb c "?".
Proof. destruct c as [[] [] [] [] [] [] [] []]; reflexivity. Qed.

Lemma slash_letter_lower s :
  re_search_slash_letter (lower s) = re_search_slash_letter s.
Proof.
  induction s as [|c r IH]; [reflexivity|].
  destruct r as [|c' r']; [reflexivity|].
  change (re_search_slash_letter (lower (String c (String c' r'))))
    with ((Ascii.eqb (lower_char c) "/" && is_letter (lower_char c'))
          || re_search_slash_letter (lower (String c' r'))).
  change (re_search_slash_letter (String c (String c' r')))
    with ((Ascii.eqb c "/" && is_letter c')
          || re_search_slash_letter (String c' r')).
  rewrite IH, lower_char_slash, lower_char_letter. reflexivity.
Qed.

Lemma question_mark_lower s :
  is_question_mark (lower s) = is_question_mark s.
Proof.
  unfold is_question_mark. destruct s as [|c [|c' r]]; try reflexivity.
  - cbn [lower]. cbn [String.eqb]. rewrite lower_char_question_mark.
    reflexivity.
  - cbn [lower]. cbn [String.eqb]. rewrite lower_char_question_mark.
    reflexivity.
Qed.

Lemma has_valid_months_lower s :
  has_valid_months (lower s) true = has_valid_months s true.
Proof.
  unfold has_valid_months. rewrite slash_letter_lower, lower_idem.
  reflexivity.
Qed.

Lemma has_valid_weekdays_lower s options :
  alias options = true ->
  has_valid_weekdays (lower s) options = has_valid_weekdays s options.
Proof.
  intros Ha. unfold has_valid_weekdays.
  rewrite slash_letter_lower, question_mark_lower, Ha, lower_idem.
  reflexivity.
Qed.

(** X16: with the alias option enabled the month and day-of-week
    checks do not depend on letter case: two fields with the same
    lower-case folding get the same verdict. *)
Theorem alias_case_insensitive (s t : string) :
  lower s = lower t ->
  has_valid_months s true = has_valid_months t true
  /\ (forall options,
         alias options = true ->
         has_valid_weekdays s options = has_valid_weekdays t options).
Proof.
  intros H. split.
  - rewrite <- (has_valid_months_lower s), <- (has_valid_months_lower t), H.
    reflexivity.
  - intros options Ha.
    rewrite <- (has_valid_weekdays_lower s _ Ha),
      <- (has_valid_weekdays_lower t _ Ha), H.
    reflexivity.
Qed.

Lemma alias_case_insensitive_witness :
  has_valid_months "Jan-MAR" true = has_valid_months "jan-mar" true.
Proof.
  apply (alias_case_insensitive "Jan-MAR" "jan-mar"). reflexivity.
Defined.

(** ** Field validators under the default options *)

Lemma slash_letter_bad_char s :
  re_search_slash_letter s = true -> re_search_bad_char s = true.
Proof.
  unfold re_search_bad_char. induction s as [|c r IH]; [discriminate|].
  destruct r as [|c' r']; [discriminate|].
  change (re_search_slash_letter (String c (String c' r')))
    with ((Ascii.eqb c "/" && is_letter c')
          || re_search_slash_letter (String c' r')).
  intros H. cbn [existsb_str] in IH |- *.
  apply orb_true_iff in H as [H|H].
  - apply andb_true_iff in H as [_ H].
    replace (negb (is_field_char c')) with true;
      [rewrite orb_true_r; reflexivity|].
    revert H. clear. destruct c' as [[] [] [] [] [] [] [] []]; vm_compute;
      congruence.
  - rewrite (IH H). apply orb_true_r.
Qed.

(** X17: without the alias option the month check is the range
    grammar with bounds 1..12, and with the alias, blank-day and
    nth-weekday options all disabled the day-of-week check is the
    range grammar with bounds 0..6, or 0..7 with seven-as-Sunday: the
    extra guards of the two functions change nothing there. *)
Theorem plain_field_validators :
  (forall months,
      has_valid_months months false = validate_for_range months 1 12)
  /\ (forall weekdays options,
         alias options = false ->
         allowBlankDay options = false ->
         allowNthWeekdayOfMonth options = false ->
         has_valid_weekdays weekdays options
         = validate_for_range weekdays 0
             (if allowSevenAsSunday options then 7 else 6)).
Proof.
  split.
  - intros months. unfold has_valid_months.
    destruct (re_search_slash_letter months) eqn:E; [|reflexivity].
    unfold validate_for_range. rewrite (slash_letter_bad_char _ E).
    reflexivity.
  - intros weekdays options Ha Hb Hn. unfold has_valid_weekdays.
    rewrite Ha, Hb, Hn. cbn [andb negb].
    destruct (is_question_mark weekdays) eqn:Hq.
    { apply String.eqb_eq in Hq. subst weekdays. reflexivity. }
    destruct (re_search_slash_letter weekdays) eqn:E; [|reflexivity].
    unfold validate_for_range. rewrite (slash_letter_bad_char _ E).
    reflexivity.
Qed.

Lemma plain_field_validators_witness :
  has_valid_weekdays "1-5/2" default_options
  = validate_for_range "1-5/2" 0 6.
Proof.
  destruct plain_field_validators as [_ H].
  apply (H "1-5/2" default_options); reflexivity.
Defined.

(** ** The alias tables *)

Ltac each_entry H :=
  simpl in H;
  repeat (destruct H as [H|H]; [injection H as <- <-|]);
  try contradiction.

Lemma month_alias_without_flag k v :
  In (k, v) month_alias -> has_valid_months k false = Ok false.
Proof. intros H. each_entry H; reflexivity. Qed.

Lemma weekdays_alias_without_flag k v options :
  In (k, v) weekdays_alias -> alias options = false ->
  has_valid_weekdays k options = Ok false.
Proof.
  intros H Ha. destruct options as [a s b s7 n]. simpl in Ha. subst a.
  each_entry H; destruct b, s7, n; reflexivity.
Qed.

(** X18: every name of the alias tables, in any letter case, is
    accepted when the alias option is enabled and rejected when it is
    not, and the number it stands for is accepted as well. *)
Theorem alias_tables_accepted :
  (forall k v name,
      In (k, v) month_alias -> lower name = k ->
      has_valid_months name true = Ok true
      /\ has_valid_months name false = Ok false
      /\ has_valid_months v true = Ok true
      /\ has_valid_months v false = Ok true)
  /\ (forall k v name options,
         In (k, v) weekdays_alias -> lower name = k ->
         (alias options = true ->
          has_valid_weekdays name options = Ok true)
         /\ (alias options = false ->
             has_valid_weekdays name options = Ok false)
         /\ has_valid_weekdays v options = Ok true).
Proof.
  split.
  - intros k v name Hin Hl. split; [|split; [|split]].
    + rewrite <- has_valid_months_lower, Hl.
      each_entry Hin; reflexivity.
    + destruct (has_valid_months_returns name false) as [[] E];
        [|exact E].
      assert (Hp : forallb_str is_plain name = true).
      { unfold has_valid_months in E.
        destruct (re_search_slash_letter name); [discriminate|].
        apply validate_chars in E. revert E. apply forallb_str_impl.
        intros c Hc. apply allowed_plain. rewrite Hc, orb_true_r.
        reflexivity. }
      rewrite (lower_plain _ Hp) in Hl. subst name.
      rewrite (month_alias_without_flag _ _ Hin) in E. discriminate.
    + each_entry Hin; reflexivity.
    + each_entry Hin; reflexivity.
  - intros k v name options Hin Hl. split; [|split].
    + intros Ha. rewrite <- (has_valid_weekdays_lower _ _ Ha), Hl.
      destruct options as [a s b s7 n]. simpl in Ha. subst a.
      each_entry Hin; destruct b, s7, n; reflexivity.
    + intros Ha.
      destruct (has_valid_weekdays_returns name options) as [[] E];
        [|exact E].
      pose proof (weekdays_chars _ _ E) as Hc.
      apply (allowed_without_alias_plain _ _ Ha) in Hc.
      rewrite (lower_plain _ Hc) in Hl. subst name.
      rewrite (weekdays_alias_without_flag _ _ _ Hin Ha) in E.
      discriminate.
    + destruct options as [a s b s7 n].
      each_entry Hin; destruct a, b, s7, n; reflexivity.
Qed.

Lemma alias_tables_accepted_witness :
  has_valid_months "OCT" true = Ok true
  /\ has_valid_months "Oct" false = Ok false.
Proof.
  destruct alias_tables_accepted as [H _].
  destruct (H "oct" "10" "OCT") as (H1 & _);
    [simpl; tauto|reflexivity|].
  destruct (H "oct" "10" "Oct") as (_ & H2 & _);
    [simpl; tauto|reflexivity|].
  split; assumption.
Defined.

(** ** Misplaced slashes *)






(** ** Where a question mark can stand *)

Lemma lower_char_keeps_question_mark x :
  Ascii.eqb "?" (lower_char x) = Ascii.eqb "?" x.
Proof. destruct x as [[] [] [] [] [] [] [] []]; reflexivity. Qed.

Lemma validate_question_mark v start stop :
  contains "?" v = true -> validate_for_range v start stop = Ok false.
Proof.
  intros H. unfold validate_for_range.
  rewrite (bad_char_found "?" v eq_refl H). reflexivity.
Qed.

Lemma days_question_mark days blank :
  has_valid_days days blank = Ok true ->
  contains "?" days = true -> days = "?" /\ blank = true.
Proof.
  unfold has_valid_days. intros H Hc.
  rewrite (validate_question_mark _ _ _ Hc) in H.
  destruct blank; [|discriminate]. cbn [andb or_else bind] in H.
  destruct (is_question_mark days) eqn:Hq; [|discriminate].
  apply String.eqb_eq in Hq. auto.
Qed.

Lemma months_question_mark months use_alias :
  contains "?" months = true ->
  has_valid_months months use_alias = Ok false.
Proof.
  intros Hc. unfold has_valid_months.
  destruct (re_search_slash_letter months); [reflexivity|].
  destruct use_alias; apply validate_question_mark; [|exact Hc].
  apply (re_sub_alias_keeps _ "?" eq_refl _ _ (le_n _)).
  rewrite (contains_lower _ _ lower_char_keeps_question_mark). exact Hc.
Qed.

Lemma weekdays_question_mark weekdays options :
  has_valid_weekdays weekdays options = Ok true ->
  contains "?" weekdays = true ->
  weekdays = "?" /\ allowBlankDay options = true.
Proof.
  unfold has_valid_weekdays. intros H Hc.
  destruct (is_question_mark weekdays) eqn:Hq.
  { apply String.eqb_eq in Hq.
    destruct (allowBlankDay options); [auto|discriminate]. }
  rewrite !andb_false_r in H.
  destruct (re_search_slash_letter weekdays); [discriminate|].
  fold (remapped_weekdays weekdays options) in H.
  assert (Hr : contains "?" (remapped_weekdays weekdays options) = true).
  { apply remapped_weekdays_keeps;
      [reflexivity|apply lower_char_keeps_question_mark|exact Hc]. }
  destruct (allowNthWeekdayOfMonth options && _).
  - destruct (split "#" (remapped_weekdays weekdays options))
      as [|wd [|occ [|? ?]]] eqn:Es;
      cbn [List.length Nat.ltb Nat.leb firstn] in H; try discriminate.
    rewrite !safe_parse_int_eq in H. cbn [and_then bind] in H.
    destruct (is_in_range (parsed occ) 1 5) eqn:Ho; [|discriminate].
    injection H as Hw. apply parsed_number_chars in Ho, Hw.
    apply split_pair in Es. rewrite Es, contains_app in Hr.
    rewrite forallb_str_forall in Ho, Hw.
    apply orb_true_iff in Hr as [Hr|Hr].
    + apply Hw in Hr. discriminate.
    + unfold contains in Hr. simpl in Hr. apply Ho in Hr. discriminate.
  - rewrite (validate_question_mark _ _ _ Hr) in H. discriminate.
Qed.

(** X20: in an accepted expression a question mark only occurs as a
    whole field, and only when blank days are allowed: every field
    that contains one is exactly the question mark. *)
Theorem question_mark_whole_field (cron : string)
  (partial_options : option (list (string * bool))) :
  is_valid_cron cron partial_options = Ok true ->
  forall f,
    In f (split_cron cron) ->
    contains "?" f = true ->
    f = "?"
    /\ allowBlankDay (merge_options default_options partial_options) = true.
Proof.
  intros H f Hin Hc. set (o := merge_options default_options partial_options).
  destruct (split_cron cron)
    as [|f1 [|f2 [|f3 [|f4 [|f5 [|f6 [|f7 l]]]]]]] eqn:Es;
    try (rewrite wrong_field_count in H;
         [discriminate|rewrite Es; simpl; lia
         |rewrite Es; right; simpl; lia]).
  - destruct (is_valid_cron_five _ partial_options _ _ _ _ _ Es)
      as (c1 & c2 & c3 & c4 & c5 & H1 & H2 & H3 & H4 & H5 & E).
    fold o in H3, H4, H5, E. rewrite E in H. injection H as H.
    do 5 (apply andb_true_iff in H as [H ?]). subst.
    destruct Hin as [<-|[<-|[<-|[<-|[<-|[]]]]]].
    + unfold has_valid_minutes in H1.
      rewrite (validate_question_mark _ _ _ Hc) in H1. discriminate.
    + unfold has_valid_hours in H2.
      rewrite (validate_question_mark _ _ _ Hc) in H2. discriminate.
    + apply (days_question_mark _ _ H3 Hc).
    + rewrite (months_question_mark _ _ Hc) in H4. discriminate.
    + apply (weekdays_question_mark _ _ H5 Hc).
  - destruct (seconds o) eqn:Hsec.
    2:{ rewrite wrong_field_count in H;
          [discriminate|rewrite Es; simpl; lia|left; exact Hsec]. }
    destruct (is_valid_cron_six _ partial_options _ _ _ _ _ _ Es Hsec)
      as (c0 & c1 & c2 & c3 & c4 & c5 & H0 & H1 & H2 & H3 & H4 & H5 & E).
    fold o in H3, H4, H5, E. rewrite E in H. injection H as H.
    do 6 (apply andb_true_iff in H as [H ?]). subst.
    destruct Hin as [<-|[<-|[<-|[<-|[<-|[<-|[]]]]]]].
    + unfold has_valid_seconds in H0.
      rewrite (validate_question_mark _ _ _ Hc) in H0. discriminate.
    + unfold has_valid_minutes in H1.
      rewrite (validate_question_mark _ _ _ Hc) in H1. discriminate.
    + unfold has_valid_hours in H2.
      rewrite (validate_question_mark _ _ _ Hc) in H2. discriminate.
    + apply (days_question_mark _ _ H3 Hc).
    + rewrite (months_question_mark _ _ Hc) in H4. discriminate.
    + apply (weekdays_question_mark _ _ H5 Hc).
Qed.

Lemma question_mark_whole_field_witness :
  "?" = "?"
  /\ allowBlankDay
       (merge_options default_options (Some [("allowBlankDay", true)]))
     = true.
Proof.
  apply (question_mark_whole_field "* * ? * 1"
           (Some [("allowBlankDay", true)]));
    [reflexivity|simpl; tauto|reflexivity].
Defined.
